(** * Contact-tracing data generator (main.py): a shallow embedding

    The Python program simulates the spread of an infection through a
    population that visits random locations every day.  This file embeds
    - the numeric values the program computes with (Python [int] and
      IEEE-754 binary64 [float], the latter as Rocq's primitive floats),
    - the exceptions it can raise,
    - the shared pseudo-random source, as an oracle of raw draws,
    - the classes [Location], [InfectionProbabilitiesMapper], [PersonDay],
      [PersonProfile], [LocationProfile] and [PeopleTracker],
    and then states and proves properties of them. *)

From Stdlib Require Import ZArith List Bool Floats Lia Sorted Permutation.
From stdpp Require Import base option list gmap relations.
From stdpp Require Import strings.
From Stdlib Require DecimalString DecimalZ DecimalPos.

Set Warnings "-inexact-float".
Local Open Scope Z_scope.

(** ** Exceptions and results *)

Inductive exception :=
| UnboundLocalError
| ValueError
| OverflowError
| IndexError
| ZeroDivisionError.

Inductive result (A : Type) :=
| Ok (a : A)
| Raise (e : exception).
Arguments Ok {A} a.
Arguments Raise {A} e.

#[global] Instance result_ret : MRet result := @Ok.
#[global] Instance result_bind : MBind result := λ A B f r,
  match r with Ok a => f a | Raise e => Raise e end.

(** ** Python numbers *)

(** A Python number is an [int] (unbounded) or a [float] (binary64). *)
Inductive num :=
| PyInt (z : Z)
| PyFloat (f : float).

Module Py.

(** The exact value of an [int] as an (unrounded) binary number. *)
Definition Z2SF (z : Z) : spec_float :=
  match z with
  | Z0 => S754_zero false
  | Zpos p => S754_finite false p 0
  | Zneg p => S754_finite true p 0
  end.

(** [float(z)]: the nearest binary64, ties to even; [OverflowError] when
    the integer is too large. *)
Definition float_of_int (z : Z) : result float :=
  match binary_normalize prec emax z 0 false with
  | S754_infinity _ => Raise OverflowError
  | r => Ok (SF2Prim r)
  end.

(** [a / b] on two [int]s: the correctly rounded quotient. *)
Definition int_truediv (a b : Z) : result float :=
  if b =? 0 then Raise ZeroDivisionError
  else match SFdiv prec emax (Z2SF a) (Z2SF b) with
       | S754_infinity _ => Raise OverflowError
       | r => Ok (SF2Prim r)
       end.

(** [int(f)]: truncation towards zero. *)
Definition int_of_float (f : float) : result Z :=
  match Prim2SF f with
  | S754_nan => Raise ValueError
  | S754_infinity _ => Raise OverflowError
  | S754_zero _ => Ok 0
  | S754_finite s m e =>
      let a := if 0 <=? e then Z.shiftl (Zpos m) e
               else Z.shiftr (Zpos m) (- e) in
      Ok (if s then - a else a)
  end.

(** [f < z] for a [float] and an [int]: Python compares the exact values. *)
Definition float_lt_int (f : float) (z : Z) : bool :=
  match Prim2SF f with
  | S754_nan => false
  | S754_infinity s => s
  | S754_zero _ => 0 <? z
  | S754_finite s m e =>
      let v := if s then Zneg m else Zpos m in
      if 0 <=? e then Z.shiftl v e <? z else v <? Z.shiftl z (- e)
  end.

(** [z <= f] and [f <= z], exact in the same way. *)
Definition int_le_float (z : Z) (f : float) : bool :=
  match Prim2SF f with
  | S754_nan => false
  | S754_infinity s => negb s
  | S754_zero _ => z <=? 0
  | S754_finite s m e =>
      let v := if s then Zneg m else Zpos m in
      if 0 <=? e then z <=? Z.shiftl v e else Z.shiftl z (- e) <=? v
  end.

Definition float_le_int (f : float) (z : Z) : bool :=
  match Prim2SF f with
  | S754_nan => false
  | S754_infinity s => s
  | S754_zero _ => 0 <=? z
  | S754_finite s m e =>
      let v := if s then Zneg m else Zpos m in
      if 0 <=? e then Z.shiftl v e <=? z else v <=? Z.shiftl z (- e)
  end.

(** [x < y] where [x] is a float (the only use in the program). *)
Definition float_lt (f : float) (y : num) : bool :=
  match y with
  | PyInt z => float_lt_int f z
  | PyFloat g => PrimFloat.ltb f g
  end.

(** [x <= y] on numbers. *)
Definition le (x y : num) : bool :=
  match x, y with
  | PyInt a, PyInt b => a <=? b
  | PyInt a, PyFloat g => int_le_float a g
  | PyFloat f, PyInt b => float_le_int f b
  | PyFloat f, PyFloat g => PrimFloat.leb f g
  end.

(** [str(z)] for an [int]: the decimal digits, after a minus sign when
    negative. *)
Definition str_int (z : Z) : string :=
  DecimalString.NilZero.string_of_int (Z.to_int z).

(** [str(b)] for a [bool]. *)
Definition str_bool (b : bool) : string :=
  if b then "True" else "False".

(** [s.lower()] on ASCII text: the letters A..Z become a..z. *)
Definition lower_char (c : Ascii.ascii) : Ascii.ascii :=
  let n := Ascii.nat_of_ascii c in
  if (65 <=? n)%nat && (n <=? 90)%nat then Ascii.ascii_of_nat (n + 32) else c.

Fixpoint lower (s : string) : string :=
  match s with
  | EmptyString => EmptyString
  | String c s' => String (lower_char c) (lower s')
  end.

End Py.

(** ** class Location(Enum) *)

Module Location.

Inductive t :=
| LIVING_ROOM
| RESTAURANT_TABLE
| INDOOR_PARTY
| CONFERENCE_ROOM
| CLASSROOM
| OUTDOOR_HIKE.

Definition value (l : t) : Z :=
  match l with
  | LIVING_ROOM => 1
  | RESTAURANT_TABLE => 2
  | INDOOR_PARTY => 3
  | CONFERENCE_ROOM => 4
  | CLASSROOM => 5
  | OUTDOOR_HIKE => 6
  end.

(** [list(Location)]: the members in definition order. *)
Definition all : list t :=
  [LIVING_ROOM; RESTAURANT_TABLE; INDOOR_PARTY; CONFERENCE_ROOM;
   CLASSROOM; OUTDOOR_HIKE].

(** [a is b] on enum members. *)
Definition is_ (a b : t) : bool := value a =? value b.

(** [member.name] *)
Definition name (l : t) : string :=
  match l with
  | LIVING_ROOM => "LIVING_ROOM"
  | RESTAURANT_TABLE => "RESTAURANT_TABLE"
  | INDOOR_PARTY => "INDOOR_PARTY"
  | CONFERENCE_ROOM => "CONFERENCE_ROOM"
  | CLASSROOM => "CLASSROOM"
  | OUTDOOR_HIKE => "OUTDOOR_HIKE"
  end.

End Location.

(** ** class LocationProfile *)

Module LocationProfile.

(** The class defines neither [__eq__] nor [__hash__]: as a dictionary
    key a profile is compared by object identity.  [addr] is that
    identity; [id] and [location] are the two attributes. *)
Record t := mk {
  addr : nat;
  id : Z;
  location : Location.t
}.

(** Key equality of a profile used as a dict key. *)
Definition same (a b : t) : bool := Nat.eqb (addr a) (addr b).

End LocationProfile.

(** ** class InfectionProbabilitiesMapper *)

Module InfectionProbabilitiesMapper.
Import Location.

Definition get_infection_probability (location : LocationProfile.t)
    (infected_count : Z) (wearing_mask social_distancing : bool)
    : result num :=
  let location := LocationProfile.location location in
  if (infected_count =? 0) || is_ location OUTDOOR_HIKE then
    Ok (PyInt 0)
  else if is_ location OUTDOOR_HIKE then
    Ok (PyFloat 0.01)
  else
    let location_prob : option float := None in
    let location_prob :=
      if is_ location LIVING_ROOM then Some 0.4%float else location_prob in
    let location_prob :=
      if is_ location RESTAURANT_TABLE then Some 0.3%float else location_prob in
    let location_prob :=
      if is_ location INDOOR_PARTY then Some 0.25%float else location_prob in
    let location_prob :=
      if is_ location CONFERENCE_ROOM then Some 0.2%float else location_prob in
    let location_prob :=
      if is_ location CLASSROOM then Some 0.15%float else location_prob in
    let infected_mask_prob :=
      if wearing_mask then 0.03%float else 0.9%float in
    let infected_social_distancing_prob :=
      if social_distancing then 0.05%float else 0.7%float in
    match location_prob with
    | None => Raise UnboundLocalError
    | Some location_prob =>
        q ← Py.int_truediv (Z.min 10 infected_count) 10;
        Ok (PyFloat
              ((0.5 * location_prob + 0.3 * infected_mask_prob
                + 0.2 * infected_social_distancing_prob)
               * (1 + q * 0.5) / 4)%float)
    end.

End InfectionProbabilitiesMapper.

(** ** The shared random source *)

(** The module-level generator of [random] is global mutable state.  Its
    state is modelled as an oracle: the unbounded sequence of raw draws
    still to come.  Every function below consumes draws from the front, so
    a statement quantified over all oracles covers every run. *)
Definition RandomState : Type := nat -> N.

(** A computation that may draw random numbers and may raise. *)
Definition Rand (A : Type) : Type := RandomState -> result (A * RandomState).

#[global] Instance Rand_ret : MRet Rand := λ A a g, Ok (a, g).
#[global] Instance Rand_bind : MBind Rand := λ A B f m g,
  match m g with
  | Ok (a, g') => f a g'
  | Raise e => Raise e
  end.

Definition raise {A} (e : exception) : Rand A := λ _, Raise e.

Definition lift {A} (r : result A) : Rand A := λ g,
  match r with
  | Ok a => Ok (a, g)
  | Raise e => Raise e
  end.

(** [for x in xs: body] with the loop-carried variables in [s]. *)
Fixpoint for_each {A S} (xs : list A) (body : A -> S -> Rand S) (s : S) : Rand S :=
  match xs with
  | [] => mret s
  | x :: xs' => s' ← body x s; for_each xs' body s'
  end.

(** [range(n)]: empty when [n <= 0]. *)
Definition range (n : Z) : list Z := map Z.of_nat (seq 0 (Z.to_nat n)).

(** [len(xs)] *)
Definition len {A} (xs : list A) : Z := Z.of_nat (length xs).

Module random.

(** One raw draw. *)
Definition draw : Rand N := λ g, Ok (g 0%nat, λ n, g (S n)).

(** [random.random()]: a multiple of 2^-53 in [0, 1). *)
Definition random : Rand float :=
  r ← draw;
  mret (of_uint63 (Uint63.of_Z (Z.of_N r mod 2 ^ 53)) / 0x1p53)%float.

(** [_randbelow(n)] for [n > 0]: some integer in [0, n). *)
Definition randbelow (n : Z) : Rand Z :=
  r ← draw;
  mret (Z.of_N r mod n).

(** [random.randint(a, b)] *)
Definition randint (a b : Z) : Rand Z :=
  let width := b + 1 - a in
  if 0 <? width then r ← randbelow width; mret (a + r)
  else raise ValueError.

(** [random.choice(seq)] *)
Definition choice {A} (seq : list A) : Rand A :=
  match seq with
  | [] => raise IndexError
  | _ =>
      i ← randbelow (len seq);
      match seq !! Z.to_nat i with
      | Some x => mret x
      | None => raise IndexError
      end
  end.

(** The selection loop of [random.sample]: [n] entries of [pool] are still
    unselected; a chosen slot is refilled with the last unselected entry. *)
Fixpoint sample_loop {A} (pool : list A) (n : nat) (k : nat) : Rand (list A) :=
  match k with
  | O => mret []
  | S k' =>
      j ← randbelow (Z.of_nat n);
      match pool !! Z.to_nat j, pool !! (n - 1)%nat with
      | Some x, Some y =>
          rest ← sample_loop (<[Z.to_nat j := y]> pool) (n - 1) k';
          mret (x :: rest)
      | _, _ => raise IndexError
      end
  end.

(** [random.sample(population, k)]: [k] entries at distinct positions.
    (CPython switches to tracking the selected indices in a set when the
    population is large; both strategies reach the same selections.) *)
Definition sample {A} (population : list A) (k : Z) : Rand (list A) :=
  let n := len population in
  if negb ((0 <=? k) && (k <=? n)) then raise ValueError
  else sample_loop population (length population) (Z.to_nat k).

End random.

(** ** class PersonProfile *)

Module PersonProfile.

Definition HIGH_MASK_WEARING_PROBABILITY : float := 0.7.
Definition HIGH_SOCIAL_DISTANCING_PROBABILITY : float := 0.6.

Definition LOW_MASK_WEARING_PROBABILITY : float := 0.2.
Definition LOW_SOCIAL_DISTANCING_PROBABILITY : float := 0.1.

Record t := mk {
  id : Z;
  mask_prob : float;
  social_distancing_prob : float
}.

Definition __init__ (_id : Z) (likely_wear_mask likely_social_distancing : bool) : t :=
  {| id := _id;
     mask_prob :=
       if likely_wear_mask then HIGH_MASK_WEARING_PROBABILITY
       else LOW_MASK_WEARING_PROBABILITY;
     social_distancing_prob :=
       if likely_social_distancing then HIGH_SOCIAL_DISTANCING_PROBABILITY
       else LOW_SOCIAL_DISTANCING_PROBABILITY |}.

Definition will_wear_mask (self : t) : Rand bool :=
  r ← random.random;
  mret (r <? mask_prob self)%float.

Definition will_social_distance (self : t) : Rand bool :=
  r ← random.random;
  mret (r <? social_distancing_prob self)%float.

Definition __eq__ (self other : t) : bool := id other =? id self.

(** [hash(self.id)] is determined by the id; the id itself stands for it. *)
Definition __hash__ (self : t) : Z := id self.

End PersonProfile.

(** ** Sets and dictionaries of the program *)

(** A [set] of person profiles.  Profiles hash and compare by [id], so the
    set holds at most one profile per id: a finite map from the id to the
    profile that was stored first. *)
Module PersonSet.

Definition contains (s : gmap Z PersonProfile.t) (person : PersonProfile.t) : bool :=
  bool_decide (is_Some (s !! PersonProfile.id person)).

(** [s.add(person)]: an equal element already stored is kept. *)
Definition add (s : gmap Z PersonProfile.t) (person : PersonProfile.t)
    : gmap Z PersonProfile.t :=
  if contains s person then s else <[PersonProfile.id person := person]> s.

(** [set(xs)] *)
Definition of_list (xs : list PersonProfile.t) : gmap Z PersonProfile.t :=
  foldl add ∅ xs.

End PersonSet.

(** A [dict] keeps its keys in insertion order; [eqb] is the equality of
    its keys. *)
Module Dict.

(** [d[k] = v] *)
Fixpoint setitem {K V} (eqb : K -> K -> bool) (d : list (K * V)) (k : K) (v : V)
    : list (K * V) :=
  match d with
  | [] => [(k, v)]
  | (k', v') :: d' =>
      if eqb k' k then (k', v) :: d' else (k', v') :: setitem eqb d' k v
  end.

(** [d.setdefault(k, []).append(x)] *)
Fixpoint setdefault_append {K V} (eqb : K -> K -> bool) (d : list (K * list V))
    (k : K) (x : V) : list (K * list V) :=
  match d with
  | [] => [(k, [x])]
  | (k', xs) :: d' =>
      if eqb k' k then (k', xs ++ [x]) :: d'
      else (k', xs) :: setdefault_append eqb d' k x
  end.

End Dict.

(** ** class PersonDay *)

(** A value handed to [csv.writer.writerow]: the rows of the program hold
    an [int] (the day) and strings. *)
Inductive cell :=
| CInt (z : Z)
| CStr (s : string).

Module PersonDay.

Record t := mk {
  day : Z;
  person : PersonProfile.t;
  place : LocationProfile.t;
  pre_visit_covid : bool;
  post_visit_covid : bool;
  mask : bool;
  social_distancing : bool
}.

Definition to_csv_row (self : t) : list cell :=
  let person_name := "person " +:+ Py.str_int (PersonProfile.id (person self)) in
  let location_name :=
    Py.lower (Location.name (LocationProfile.location (place self)))
    +:+ " " +:+ Py.str_int (LocationProfile.id (place self)) in
  [CInt (day self); CStr person_name; CStr location_name;
   CStr (Py.str_bool (pre_visit_covid self));
   CStr (Py.str_bool (post_visit_covid self));
   CStr (Py.str_bool (mask self));
   CStr (Py.str_bool (social_distancing self))].

End PersonDay.

(** ** list.sort(key=...) on integer triples *)

Module Sort.

(** Tuples compare lexicographically. *)
Definition key_le (a b : Z * Z * Z) : bool :=
  let '(a1, a2, a3) := a in
  let '(b1, b2, b3) := b in
  (a1 <? b1) || ((a1 =? b1) && ((a2 <? b2) || ((a2 =? b2) && (a3 <=? b3)))).

(** [list.sort] is stable, and the stable sorted arrangement of a list is
    unique: insertion that keeps equal keys in their original order
    computes it. *)
Fixpoint insert {A} (key : A -> Z * Z * Z) (x : A) (l : list A) : list A :=
  match l with
  | [] => [x]
  | y :: l' => if key_le (key x) (key y) then x :: l else y :: insert key x l'
  end.

Fixpoint sort {A} (key : A -> Z * Z * Z) (l : list A) : list A :=
  match l with
  | [] => []
  | x :: l' => insert key x (sort key l')
  end.

End Sort.

(** ** class PeopleTracker *)

Module PeopleTracker.

Record t := mk {
  simulated_day : Z;
  population : list PersonProfile.t;
  available_locations : list LocationProfile.t;
  infected_population : gmap Z PersonProfile.t
}.

Definition generate_population (population_count : Z)
    (mask_wearing_rate social_distancing_rate : float)
    : Rand (list PersonProfile.t) :=
  for_each (range population_count)
    (λ i population,
       r1 ← random.random;
       let likely_wear_mask := (r1 <? mask_wearing_rate)%float in
       r2 ← random.random;
       let likely_social_distancing := (r2 <? social_distancing_rate)%float in
       mret (population
             ++ [PersonProfile.__init__ i likely_wear_mask likely_social_distancing]))
    [].

(** Every [LocationProfile(i, location)] is a new object: its identity is
    the number of profiles created before it. *)
Definition generate_available_locations : Rand (list LocationProfile.t) :=
  let all_locations := Location.all in
  for_each all_locations
    (λ location available_locations,
       location_count ← random.randint 1 5;
       for_each (range location_count)
         (λ i available_locations,
            mret (available_locations
                  ++ [LocationProfile.mk (length available_locations) i location]))
         available_locations)
    [].

Definition get_initial_infected_population (population : list PersonProfile.t)
    (initial_infection_rate : float) : Rand (list PersonProfile.t) :=
  n ← lift (Py.float_of_int (len population));
  initial_infected_population ← lift (Py.int_of_float (n * initial_infection_rate)%float);
  random.sample population initial_infected_population.

Definition __init__ (population_count : Z)
    (initial_infection_rate mask_wearing_rate social_distancing_rate : float)
    : Rand t :=
  population ← generate_population population_count mask_wearing_rate
                  social_distancing_rate;
  available_locations ← generate_available_locations;
  infected ← get_initial_infected_population population initial_infection_rate;
  mret {| simulated_day := 0;
          population := population;
          available_locations := available_locations;
          infected_population := PersonSet.of_list infected |}.

Definition determine_locations (self : t)
    : Rand (list (PersonProfile.t * LocationProfile.t)
            * list (LocationProfile.t * list PersonProfile.t)) :=
  for_each (population self)
    (λ person '(location_assignment, grouped_location),
       location ← random.choice (available_locations self);
       mret (Dict.setitem PersonProfile.__eq__ location_assignment person location,
             Dict.setdefault_append LocationProfile.same grouped_location
               location person))
    ([], []).

(** [infected_count_in_location]: the occupants found in the infected set. *)
Definition count_infected (infected : gmap Z PersonProfile.t)
    (people_in_location : list PersonProfile.t) : Z :=
  foldl (λ infected_count_in_location person,
           if PersonSet.contains infected person
           then infected_count_in_location + 1
           else infected_count_in_location)
    0 people_in_location.

(** The body of the second loop over the occupants of one location; the
    loop carries the infected set and the records collected so far. *)
Definition update_person (simulated_day : Z) (location : LocationProfile.t)
    (infected_count_in_location : Z) (person : PersonProfile.t)
    (st : gmap Z PersonProfile.t * list PersonDay.t)
    : Rand (gmap Z PersonProfile.t * list PersonDay.t) :=
  let '(infected_population, day_summary) := st in
  wore_mask ← PersonProfile.will_wear_mask person;
  social_distanced ← PersonProfile.will_social_distance person;
  outcome ←
    (if (infected_count_in_location =? 0)
        && negb (PersonSet.contains infected_population person)
     then mret (false, false)
     else if PersonSet.contains infected_population person
     then mret (true, true)
     else
       infection_probability ←
         lift (InfectionProbabilitiesMapper.get_infection_probability
                 location infected_count_in_location wore_mask social_distanced);
       r ← random.random;
       mret (false, Py.float_lt r infection_probability)
     : Rand (bool * bool));
  let '(pre_covid, post_covid) := outcome : bool * bool in
  let infected_population :=
    if post_covid then PersonSet.add infected_population person
    else infected_population in
  mret (infected_population,
        day_summary
        ++ [PersonDay.mk simulated_day person location pre_covid post_covid
              wore_mask social_distanced]).

(** The body of the loop over the location groups. *)
Definition update_location (simulated_day : Z)
    (group : LocationProfile.t * list PersonProfile.t)
    (st : gmap Z PersonProfile.t * list PersonDay.t)
    : Rand (gmap Z PersonProfile.t * list PersonDay.t) :=
  let '(location, people_in_location) := group in
  let infected_count_in_location := count_infected (fst st) people_in_location in
  for_each people_in_location
    (update_person simulated_day location infected_count_in_location) st.

Definition sort_key (people_day : PersonDay.t) : Z * Z * Z :=
  (Location.value (LocationProfile.location (PersonDay.place people_day)),
   LocationProfile.id (PersonDay.place people_day),
   PersonProfile.id (PersonDay.person people_day)).

Definition update_infection (self : t)
    (group_by_locations : list (LocationProfile.t * list PersonProfile.t))
    : Rand (list PersonDay.t * t) :=
  st ←
    for_each group_by_locations (update_location (simulated_day self))
      (infected_population self, []);
  let '(infected_population, day_summary) :=
    st : gmap Z PersonProfile.t * list PersonDay.t in
  mret (Sort.sort sort_key day_summary,
        {| simulated_day := simulated_day self;
           population := population self;
           available_locations := available_locations self;
           infected_population := infected_population |}).

Definition simulate_day (self : t) : Rand (list PersonDay.t * t) :=
  locations ← determine_locations self;
  let '(location_assignment, grouped_location) :=
    locations : list (PersonProfile.t * LocationProfile.t)
                * list (LocationProfile.t * list PersonProfile.t) in
  updated ← update_infection self grouped_location;
  let '(summary, self) := updated : list PersonDay.t * t in
  let self :=
    {| simulated_day := simulated_day self + 1;
       population := population self;
       available_locations := available_locations self;
       infected_population := infected_population self |} in
  mret (summary, self).

End PeopleTracker.

(** ** class CovidDataGenerator *)

(** The file behind [csv.writer] is not modelled: [generate_csv] returns
    the rows it hands to [writer.writerow], in order. *)
Module CovidDataGenerator.

Definition POPULATION : Z := 1500.
Definition INITIAL_INFECTION_RATE : float := 0.03.
Definition TIME_LENGTH : Z := 7.
Definition MASK_WEARING_RATE : float := 0.7.
Definition SOCIAL_DISTANCING_RATE : float := 0.5.

Record t := mk {
  people_tracker : PeopleTracker.t
}.

Definition __init__ : Rand t :=
  people_tracker ← PeopleTracker.__init__ POPULATION INITIAL_INFECTION_RATE
                     MASK_WEARING_RATE SOCIAL_DISTANCING_RATE;
  mret {| people_tracker := people_tracker |}.

(** The generator function: the records it yields, in order, once it is
    run to exhaustion. *)
Definition generate_data (self : t) : Rand (list PersonDay.t * t) :=
  day ← PeopleTracker.simulate_day (people_tracker self);
  let '(people_data, people_tracker) := day : list PersonDay.t * PeopleTracker.t in
  mret (people_data, {| people_tracker := people_tracker |}).

Definition header : list cell :=
  [CStr "day"; CStr "person"; CStr "place"; CStr "pre-visit covid positive";
   CStr "post-visit covid positive"; CStr "mask"; CStr "social distancing"].

Definition generate_csv (self : t) (csv_file : string)
    : Rand (list (list cell) * t) :=
  let written := [header] in
  for_each (range TIME_LENGTH)
    (λ i st,
       let '(written, self) := st : list (list cell) * t in
       data ← generate_data self;
       let '(rows, self) := data : list PersonDay.t * t in
       written ←
         for_each rows
           (λ row written, mret (written ++ [PersonDay.to_csv_row row]))
           written;
       mret (written, self))
    (written, self).

End CovidDataGenerator.

(** The [__main__] block. *)
Definition main : Rand (list (list cell) * CovidDataGenerator.t) :=
  generator ← CovidDataGenerator.__init__;
  CovidDataGenerator.generate_csv generator "contact_tracing.csv".

(** ** The probability formula as the specification words it *)

Module Spec.

(** Base location factor by category; OUTDOOR_HIKE has none. *)
Definition location_factor (category : Location.t) : option float :=
  match category with
  | Location.LIVING_ROOM => Some 0.4%float
  | Location.RESTAURANT_TABLE => Some 0.3%float
  | Location.INDOOR_PARTY => Some 0.25%float
  | Location.CONFERENCE_ROOM => Some 0.2%float
  | Location.CLASSROOM => Some 0.15%float
  | Location.OUTDOOR_HIKE => None
  end.

Definition mask_factor (wearing_mask : bool) : float :=
  if wearing_mask then 0.03%float else 0.9%float.

Definition distancing_factor (social_distancing : bool) : float :=
  if social_distancing then 0.05%float else 0.7%float.

(** A small non-negative integer as a float (exact below 2^53). *)
Definition to_float (z : Z) : float := of_uint63 (Uint63.of_Z z).

(** [(0.5*location_factor + 0.3*mask_factor + 0.2*distancing_factor)
     * (1 + min(10, infected_count)/10 * 0.5) / 4] *)
Definition combine (location_factor mask_factor distancing_factor : float)
    (infected_count : Z) : float :=
  ((0.5 * location_factor + 0.3 * mask_factor + 0.2 * distancing_factor)
   * (1 + to_float (Z.min 10 infected_count) / 10 * 0.5) / 4)%float.

End Spec.

(** ** Vocabulary of the statements *)

(** One call of [simulate_day()] that returns, from any state of the
    random source. *)
Definition simulate_day_call (self self' : PeopleTracker.t) : Prop :=
  exists g summary g', PeopleTracker.simulate_day self g = Ok ((summary, self'), g').

(** Ascending order on (location category ordinal, location instance id,
    person id), compared lexicographically. *)
Definition record_le (a b : PersonDay.t) : Prop :=
  let ca := Location.value (LocationProfile.location (PersonDay.place a)) in
  let cb := Location.value (LocationProfile.location (PersonDay.place b)) in
  let la := LocationProfile.id (PersonDay.place a) in
  let lb := LocationProfile.id (PersonDay.place b) in
  let pa := PersonProfile.id (PersonDay.person a) in
  let pb := PersonProfile.id (PersonDay.person b) in
  ca < cb \/ (ca = cb /\ (la < lb \/ (la = lb /\ pa <= pb))).

(** What construction establishes and [simulate_day()] keeps: person ids
    are pairwise distinct and there is at least one location. *)
Definition well_formed (self : PeopleTracker.t) : Prop :=
  PeopleTracker.available_locations self <> []
  /\ List.NoDup (map PersonProfile.id (PeopleTracker.population self)).

(** A rate in the closed interval [0, 1]. *)
Definition rate_in_unit_interval (rate : float) : bool :=
  (0 <=? rate)%float && (rate <=? 1)%float.

(** An invalid configuration, as the specification lists it: a negative
    population count or a rate outside [0, 1]. *)
Definition invalid_configuration (population_count : Z)
    (initial_infection_rate mask_wearing_rate social_distancing_rate : float)
    : bool :=
  (population_count <? 0)
  || negb (rate_in_unit_interval initial_infection_rate)
  || negb (rate_in_unit_interval mask_wearing_rate)
  || negb (rate_in_unit_interval social_distancing_rate).

(** [int(population_size * initial_infection_rate)], the number of people
    to infect at the start. *)
Definition initial_sample_size (population_size : Z) (rate : float) : result Z :=
  n ← Py.float_of_int population_size;
  Py.int_of_float (n * rate)%float.

(** Everybody placed in some group of a grouping by location. *)
Definition occupants (groups : list (LocationProfile.t * list PersonProfile.t))
    : list PersonProfile.t :=
  concat (map snd groups).

(** The records of a day summary that are about a given person id. *)
Definition records_of (person_id : Z) (summary : list PersonDay.t)
    : list PersonDay.t :=
  List.filter (λ r, PersonProfile.id (PersonDay.person r) =? person_id) summary.

(** What holds of every record written for an occupant of the location
    [loc], where [count] is the group's infected count. *)
Definition visit_record_ok (day : Z) (loc : LocationProfile.t) (count : Z)
    (r : PersonDay.t) : Prop :=
  PersonDay.day r = day
  /\ PersonDay.place r = loc
  /\ (PersonDay.pre_visit_covid r = true -> PersonDay.post_visit_covid r = true)
  /\ (PersonDay.pre_visit_covid r = false ->
      PersonDay.post_visit_covid r = true ->
      count <> 0 /\ LocationProfile.location loc <> Location.OUTDOOR_HIKE).

(** Some record of [records] reports the person (by id) infected after
    the visit. *)
Definition reported_infected (records : list PersonDay.t) (p : PersonProfile.t)
    : Prop :=
  exists r,
    In r records
    /\ PersonProfile.id (PersonDay.person r) = PersonProfile.id p
    /\ PersonDay.post_visit_covid r = true.

(** A record of somebody infected during the visit has, among [records],
    a record of somebody at the same place who arrived infected. *)
Definition has_contact (records : list PersonDay.t) (r : PersonDay.t) : Prop :=
  PersonDay.pre_visit_covid r = false ->
  PersonDay.post_visit_covid r = true ->
  exists r',
    In r' records
    /\ PersonDay.place r' = PersonDay.place r
    /\ PersonDay.pre_visit_covid r' = true.

(** What holds of every record of a day whose location groups are
    [groups]: it is stamped with the day, its person is an occupant of the
    group of its place, an infected person stays infected, and nobody is
    infected on a hike. *)
Definition day_record_ok (day : Z)
    (groups : list (LocationProfile.t * list PersonProfile.t))
    (r : PersonDay.t) : Prop :=
  PersonDay.day r = day
  /\ (exists people,
         In (PersonDay.place r, people) groups /\ In (PersonDay.person r) people)
  /\ (PersonDay.pre_visit_covid r = true -> PersonDay.post_visit_covid r = true)
  /\ (PersonDay.pre_visit_covid r = false ->
      PersonDay.post_visit_covid r = true ->
      LocationProfile.location (PersonDay.place r) <> Location.OUTDOOR_HIKE).

(** The (category, instance id) label of a location. *)
Definition location_key (l : LocationProfile.t) : Location.t * Z :=
  (LocationProfile.location l, LocationProfile.id l).

(** The labels of a pool with [c] instances of each category [cat], the
    categories in the given order and the instances numbered from 0. *)
Definition pool_keys (categories : list Location.t) (counts : list Z)
    : list (Location.t * Z) :=
  concat (zip_with (λ cat c, map (λ i, (cat, i)) (range c)) categories counts).

(** A day summary for the given population and day number: every record
    is stamped with the day, there is one record per person, and the
    records are in the sorted order. *)
Definition day_summary_ok (population : list PersonProfile.t) (day : Z)
    (summary : list PersonDay.t) : Prop :=
  Forall (λ r, PersonDay.day r = day) summary
  /\ Permutation (map PersonDay.person summary) population
  /\ StronglySorted record_le summary.

(** The rows written after the header for a list of day summaries. *)
Definition data_rows (days : list (list PersonDay.t)) : list (list cell) :=
  concat (map (map PersonDay.to_csv_row) days).

(** Every infected person is (by id) a member of the population. *)
Definition infected_are_members (self : PeopleTracker.t) : Prop :=
  forall p,
    PersonSet.contains (PeopleTracker.infected_population self) p = true ->
    exists q,
      In q (PeopleTracker.population self)
      /\ PersonProfile.id q = PersonProfile.id p.

(** ** A sample oracle, for running the model on concrete inputs *)

Definition example_oracle : RandomState :=
  λ n, N.modulo
         ((N.of_nat n + 1) * (N.of_nat n + 7) * 6364136223846793005
          + 1442695040888963407)
         (2 ^ 61).

(** A small run: a tracker for six people built by the constructor, and
    its first simulated day. *)
Definition example_start : result (PeopleTracker.t * RandomState) :=
  PeopleTracker.__init__ 6 0.5 0.7 0.5 example_oracle.

Definition example_tracker : PeopleTracker.t :=
  match example_start with
  | Ok (self, _) => self
  | Raise _ => PeopleTracker.mk 0 [] [] ∅
  end.

Definition example_oracle_1 : RandomState :=
  match example_start with
  | Ok (_, g) => g
  | Raise _ => example_oracle
  end.

Definition example_day : result (list PersonDay.t * PeopleTracker.t * RandomState) :=
  PeopleTracker.simulate_day example_tracker example_oracle_1.

Definition example_summary : list PersonDay.t :=
  match example_day with
  | Ok (summary, _, _) => summary
  | Raise _ => []
  end.

Definition example_after : PeopleTracker.t :=
  match example_day with
  | Ok (_, self, _) => self
  | Raise _ => example_tracker
  end.

Definition example_oracle_2 : RandomState :=
  match example_day with
  | Ok (_, _, g) => g
  | Raise _ => example_oracle_1
  end.

(** One pass of the loop body on its own: person 2, already infected,
    visits a living room with one infected occupant. *)
Definition example_person : PersonProfile.t := PersonProfile.__init__ 2 true false.

Definition example_visit
    : result (gmap Z PersonProfile.t * list PersonDay.t * RandomState) :=
  PeopleTracker.update_person 0 (LocationProfile.mk 0 0 Location.LIVING_ROOM) 1
    example_person (PeopleTracker.infected_population example_tracker, [])
    example_oracle.

Definition example_visit_infected : gmap Z PersonProfile.t :=
  match example_visit with
  | Ok (infected, _, _) => infected
  | Raise _ => ∅
  end.

Definition example_visit_summary : list PersonDay.t :=
  match example_visit with
  | Ok (_, day_summary, _) => day_summary
  | Raise _ => []
  end.

Definition example_visit_oracle : RandomState :=
  match example_visit with
  | Ok (_, _, g) => g
  | Raise _ => example_oracle
  end.

(** The grouping of the example day. *)
Definition example_locations
    : result (list (PersonProfile.t * LocationProfile.t)
              * list (LocationProfile.t * list PersonProfile.t) * RandomState) :=
  PeopleTracker.determine_locations example_tracker example_oracle_1.

Definition example_assignment : list (PersonProfile.t * LocationProfile.t) :=
  match example_locations with
  | Ok (assignment, _, _) => assignment
  | Raise _ => []
  end.

Definition example_groups : list (LocationProfile.t * list PersonProfile.t) :=
  match example_locations with
  | Ok (_, groups, _) => groups
  | Raise _ => []
  end.

Definition example_oracle_groups : RandomState :=
  match example_locations with
  | Ok (_, _, g) => g
  | Raise _ => example_oracle_1
  end.

(** The same people and locations with nobody infected, and one day. *)
Definition healthy_tracker : PeopleTracker.t :=
  PeopleTracker.mk 0 (PeopleTracker.population example_tracker)
    (PeopleTracker.available_locations example_tracker) ∅.

Definition healthy_day : result (list PersonDay.t * PeopleTracker.t * RandomState) :=
  PeopleTracker.simulate_day healthy_tracker example_oracle_1.

Definition healthy_summary : list PersonDay.t :=
  match healthy_day with
  | Ok (summary, _, _) => summary
  | Raise _ => []
  end.

Definition healthy_after : PeopleTracker.t :=
  match healthy_day with
  | Ok (_, self, _) => self
  | Raise _ => healthy_tracker
  end.

Definition healthy_oracle : RandomState :=
  match healthy_day with
  | Ok (_, _, g) => g
  | Raise _ => example_oracle_1
  end.

(** Two records that differ only in what a row does not show: the
    propensities of the person and the identity of the location object. *)
Definition example_record : PersonDay.t :=
  PersonDay.mk 2 (PersonProfile.__init__ 3 true true)
    (LocationProfile.mk 4 1 Location.CLASSROOM) false true true false.

Definition example_record' : PersonDay.t :=
  PersonDay.mk 2 (PersonProfile.__init__ 3 false false)
    (LocationProfile.mk 9 1 Location.CLASSROOM) false true true false.

(** A generator around the example tracker. *)
Definition example_generator : CovidDataGenerator.t :=
  CovidDataGenerator.mk example_tracker.

(** * Properties *)

(** ** The infection probability model *)

Section Probability.
Import InfectionProbabilitiesMapper.

Lemma min_10_cases (c : Z) :
  0 < c ->
  Z.min 10 c = 1 \/ Z.min 10 c = 2 \/ Z.min 10 c = 3 \/ Z.min 10 c = 4
  \/ Z.min 10 c = 5 \/ Z.min 10 c = 6 \/ Z.min 10 c = 7 \/ Z.min 10 c = 8
  \/ Z.min 10 c = 9 \/ Z.min 10 c = 10.
Proof. lia. Qed.

Lemma count_1_10_cases (c : Z) :
  1 <= c <= 10 ->
  c = 1 \/ c = 2 \/ c = 3 \/ c = 4 \/ c = 5 \/ c = 6 \/ c = 7 \/ c = 8
  \/ c = 9 \/ c = 10.
Proof. lia. Qed.

(** Evaluates the call in the goal and checks the bounds on its value. *)
Ltac run_probability :=
  match goal with
  | |- exists p, ?c = Ok p /\ _ =>
      let v := eval vm_compute in c in
      match v with
      | Ok ?p =>
          exists p; split; [vm_compute; reflexivity | split; vm_compute; reflexivity]
      end
  end.

Ltac run_probabilities :=
  match goal with
  | |- exists pj pk, ?cj = Ok pj /\ ?ck = Ok pk /\ _ =>
      let vj := eval vm_compute in cj in
      let vk := eval vm_compute in ck in
      match constr:((vj, vk)) with
      | (Ok ?pj, Ok ?pk) =>
          exists pj, pk; repeat split; vm_compute; reflexivity
      end
  end.

(** Splits a disjunction of equations on a variable into its cases. *)
Ltac each_value H :=
  repeat (destruct H as [H | H]; [rewrite H; clear H | ]); try (rewrite H; clear H).

(** C3: with no infected co-occupant the probability is the integer 0, and
    at an OUTDOOR_HIKE location it is 0 whatever the infected count, so
    the 0.01 branch is never taken. *)
Theorem get_infection_probability_zero :
  forall (loc : LocationProfile.t) (infected_count : Z)
         (wearing_mask social_distancing : bool),
    (infected_count = 0 ->
     get_infection_probability loc infected_count wearing_mask social_distancing
     = Ok (PyInt 0))
    /\ (LocationProfile.location loc = Location.OUTDOOR_HIKE ->
        get_infection_probability loc infected_count wearing_mask social_distancing
        = Ok (PyInt 0)).
Proof.
  intros loc n m d; unfold get_infection_probability.
  split.
  - intros ->. reflexivity.
  - intros ->. cbn. rewrite orb_true_r. reflexivity.
Qed.

Lemma get_infection_probability_zero_witness :
  get_infection_probability
    (LocationProfile.mk 0 0 Location.CLASSROOM) 0 true false = Ok (PyInt 0)
  /\ get_infection_probability
       (LocationProfile.mk 0 0 Location.OUTDOOR_HIKE) 7 false false = Ok (PyInt 0).
Proof.
  split.
  - apply (proj1 (get_infection_probability_zero
                    (LocationProfile.mk 0 0 Location.CLASSROOM) 0 true false)).
    reflexivity.
  - apply (proj2 (get_infection_probability_zero
                    (LocationProfile.mk 0 0 Location.OUTDOOR_HIKE) 7 false false)).
    reflexivity.
Defined.

(** C4: away from OUTDOOR_HIKE and with at least one infected co-occupant,
    the result is the float given by the specification's formula, with the
    location, mask and distancing factors of the specification's table. *)
Theorem get_infection_probability_formula :
  forall (loc : LocationProfile.t) (infected_count : Z)
         (wearing_mask social_distancing : bool),
    LocationProfile.location loc <> Location.OUTDOOR_HIKE ->
    0 < infected_count ->
    exists location_factor,
      Spec.location_factor (LocationProfile.location loc) = Some location_factor
      /\ get_infection_probability loc infected_count wearing_mask social_distancing
         = Ok (PyFloat (Spec.combine location_factor
                          (Spec.mask_factor wearing_mask)
                          (Spec.distancing_factor social_distancing)
                          infected_count)).
Proof.
  intros [a i l] n m d Hl Hn. cbn in Hl.
  unfold get_infection_probability, Spec.combine.
  replace (n =? 0) with false by (symmetry; apply Z.eqb_neq; lia).
  pose proof (min_10_cases n Hn) as Hc.
  destruct l; try congruence; cbn [LocationProfile.location Spec.location_factor];
    eexists; (split; [reflexivity | ]);
    each_value Hc; destruct m, d; vm_compute; reflexivity.
Qed.

Lemma get_infection_probability_formula_witness :
  exists location_factor,
    Spec.location_factor Location.CLASSROOM = Some location_factor
    /\ get_infection_probability (LocationProfile.mk 3 1 Location.CLASSROOM) 4 true false
       = Ok (PyFloat (Spec.combine location_factor (Spec.mask_factor true)
                        (Spec.distancing_factor false) 4)).
Proof.
  apply (get_infection_probability_formula
           (LocationProfile.mk 3 1 Location.CLASSROOM) 4 true false).
  - discriminate.
  - lia.
Defined.

(** The function raises nothing at a non-negative count: the location
    factor is always assigned, and the true division is by 10. *)
Lemma get_infection_probability_total :
  forall (loc : LocationProfile.t) (infected_count : Z)
         (wearing_mask social_distancing : bool),
    0 <= infected_count ->
    exists p,
      get_infection_probability loc infected_count wearing_mask social_distancing
      = Ok p.
Proof.
  intros [a i l] n m d Hn.
  destruct (Z.eq_dec n 0) as [-> | Hz].
  - eexists. reflexivity.
  - unfold get_infection_probability.
    replace (n =? 0) with false by (symmetry; apply Z.eqb_neq; lia).
    assert (Hc := min_10_cases n ltac:(lia)).
    destruct l; cbn [LocationProfile.location];
      each_value Hc; destruct m, d; eexists; vm_compute; reflexivity.
Qed.

(** C5: for a non-negative infected count the function returns a number
    in the closed interval [0, 1]. *)
Theorem get_infection_probability_in_unit_interval :
  forall (loc : LocationProfile.t) (infected_count : Z)
         (wearing_mask social_distancing : bool),
    0 <= infected_count ->
    exists p,
      get_infection_probability loc infected_count wearing_mask social_distancing
      = Ok p
      /\ Py.le (PyInt 0) p = true /\ Py.le p (PyInt 1) = true.
Proof.
  intros [a i l] n m d Hn.
  destruct (Z.eq_dec n 0) as [-> | Hz].
  - destruct l, m, d; run_probability.
  - unfold get_infection_probability.
    replace (n =? 0) with false by (symmetry; apply Z.eqb_neq; lia).
    assert (Hc := min_10_cases n ltac:(lia)).
    destruct l; cbn [LocationProfile.location];
      each_value Hc; destruct m, d; run_probability.
Qed.

Lemma get_infection_probability_in_unit_interval_witness :
  exists p,
    get_infection_probability (LocationProfile.mk 0 0 Location.LIVING_ROOM) 25 false false
    = Ok p
    /\ Py.le (PyInt 0) p = true /\ Py.le p (PyInt 1) = true.
Proof.
  apply (get_infection_probability_in_unit_interval
           (LocationProfile.mk 0 0 Location.LIVING_ROOM) 25 false false).
  lia.
Defined.

(** C8: for a fixed location and fixed mask and distancing flags, the
    probability is non-decreasing in the infected count over 1..10. *)
Theorem get_infection_probability_monotone :
  forall (loc : LocationProfile.t) (wearing_mask social_distancing : bool)
         (j k : Z),
    1 <= j -> j <= k -> k <= 10 ->
    exists pj pk,
      get_infection_probability loc j wearing_mask social_distancing = Ok pj
      /\ get_infection_probability loc k wearing_mask social_distancing = Ok pk
      /\ Py.le pj pk = true.
Proof.
  intros [a i l] m d j k Hj Hjk Hk.
  assert (Cj := count_1_10_cases j ltac:(lia)).
  assert (Ck := count_1_10_cases k ltac:(lia)).
  revert Hj Hjk Hk.
  each_value Cj; each_value Ck; intros Hj Hjk Hk; try lia;
    destruct l, m, d; run_probabilities.
Qed.

Lemma get_infection_probability_monotone_witness :
  exists pj pk,
    get_infection_probability (LocationProfile.mk 0 0 Location.INDOOR_PARTY) 2 true true
    = Ok pj
    /\ get_infection_probability (LocationProfile.mk 0 0 Location.INDOOR_PARTY) 9 true true
       = Ok pk
    /\ Py.le pj pk = true.
Proof.
  apply (get_infection_probability_monotone
           (LocationProfile.mk 0 0 Location.INDOOR_PARTY) true true 2 9); lia.
Defined.

End Probability.

(** ** Reasoning about [Rand] computations *)

Section RandFacts.

Lemma bind_Ok {A B} (m : Rand A) (k : A -> Rand B) (g : RandomState) r :
  (m ≫= k) g = Ok r -> exists a g1, m g = Ok (a, g1) /\ k a g1 = Ok r.
Proof.
  unfold mbind, Rand_bind.
  destruct (m g) as [[a g1] | e]; [eauto | discriminate].
Qed.

Lemma bind_Ok_intro {A B} (m : Rand A) (k : A -> Rand B) g a g1 r :
  m g = Ok (a, g1) -> k a g1 = r -> (m ≫= k) g = r.
Proof. unfold mbind, Rand_bind. intros -> ->. reflexivity. Qed.

Lemma ret_Ok {A} (a : A) (g : RandomState) r :
  (mret a : Rand A) g = Ok r -> r = (a, g).
Proof. unfold mret, Rand_ret. congruence. Qed.

Lemma lift_Ok {A} (x : result A) (g : RandomState) r :
  lift x g = Ok r -> x = Ok r.1 /\ r.2 = g.
Proof. unfold lift. destruct x; intros [= <-]; auto. Qed.

(** Loop invariant rule: [P done s] relates the elements already iterated
    over to the loop-carried state. *)
Lemma for_each_ind {A S} (P : list A -> S -> Prop) (body : A -> S -> Rand S)
    (xs : list A) :
  (forall done x todo s g s' g',
      xs = done ++ x :: todo ->
      P done s -> body x s g = Ok (s', g') -> P (done ++ [x]) s') ->
  forall s g s' g',
    P [] s -> for_each xs body s g = Ok (s', g') -> P xs s'.
Proof.
  intros Hstep.
  assert (Hgen : forall todo done s g s' g',
             xs = done ++ todo ->
             P done s -> for_each todo body s g = Ok (s', g') ->
             P (done ++ todo) s').
  { induction todo as [| x todo IH]; intros done s g s' g' Hxs HP Hrun;
      cbn in Hrun.
    - apply ret_Ok in Hrun. injection Hrun as -> ->. now rewrite app_nil_r.
    - apply bind_Ok in Hrun as (s1 & g1 & Hx & Hrest).
      replace (done ++ x :: todo) with ((done ++ [x]) ++ todo)
        by now rewrite <- app_assoc.
      eapply IH; [ | | exact Hrest].
      + now rewrite <- app_assoc.
      + eapply Hstep; eauto. }
  intros s g s' g' HP Hrun. exact (Hgen xs [] s g s' g' eq_refl HP Hrun).
Qed.

(** The same rule for loops whose body cannot raise under the invariant:
    the loop returns. *)
Lemma for_each_total {A S} (P : list A -> S -> Prop) (body : A -> S -> Rand S)
    (xs : list A) :
  (forall done x todo s g,
      xs = done ++ x :: todo ->
      P done s -> exists s' g', body x s g = Ok (s', g') /\ P (done ++ [x]) s') ->
  forall s g,
    P [] s -> exists s' g', for_each xs body s g = Ok (s', g') /\ P xs s'.
Proof.
  intros Hstep.
  assert (Hgen : forall todo done s g,
             xs = done ++ todo ->
             P done s ->
             exists s' g', for_each todo body s g = Ok (s', g')
                           /\ P (done ++ todo) s').
  { induction todo as [| x todo IH]; intros done s g Hxs HP; cbn.
    - exists s, g. rewrite app_nil_r. auto.
    - destruct (Hstep done x todo s g Hxs HP) as (s1 & g1 & Hx & HP1).
      destruct (IH (done ++ [x]) s1 g1) as (s' & g' & Hrest & HP').
      + now rewrite <- app_assoc.
      + exact HP1.
      + exists s', g'. split.
        * eapply bind_Ok_intro; eauto.
        * now rewrite <- app_assoc in HP'. }
  intros s g HP. exact (Hgen xs [] s g eq_refl HP).
Qed.

Lemma for_each_returns {A S} (body : A -> S -> Rand S) (xs : list A) :
  (forall x s g, exists s' g', body x s g = Ok (s', g')) ->
  forall s g, exists s' g', for_each xs body s g = Ok (s', g').
Proof.
  intros Hbody s g.
  destruct (for_each_total (λ _ _, True) body xs) with s g
    as (s' & g' & Hrun & _); [ | exact I | eauto].
  intros done x todo s1 g1 _ _.
  destruct (Hbody x s1 g1) as (s2 & g2 & Hx). eauto.
Qed.

Lemma random_total (g : RandomState) :
  exists r g', random.random g = Ok (r, g').
Proof. unfold random.random. cbn. eauto. Qed.

Lemma randbelow_Ok (n : Z) (g : RandomState) :
  exists r g', random.randbelow n g = Ok (r, g') /\ (0 < n -> 0 <= r < n).
Proof.
  unfold random.randbelow. cbn. do 2 eexists. split; [reflexivity | ].
  intros Hn. apply Z.mod_pos_bound. exact Hn.
Qed.

Lemma choice_total {A} (seq : list A) (g : RandomState) :
  seq <> [] -> exists x g', random.choice seq g = Ok (x, g') /\ In x seq.
Proof.
  intros Hne. unfold random.choice.
  destruct seq as [| a seq']; [congruence | ].
  set (l := a :: seq') in *.
  destruct (randbelow_Ok (len l) g) as (i & g1 & Hi & Hrange).
  assert (Hlen : 0 < len l) by (unfold len, l; cbn [length]; lia).
  specialize (Hrange Hlen).
  destruct (l !! Z.to_nat i) as [x |] eqn:Hx.
  - exists x, g1. split.
    + eapply bind_Ok_intro; [exact Hi | ]. rewrite Hx. reflexivity.
    + apply list_elem_of_In. eapply list_elem_of_lookup_2. exact Hx.
  - apply lookup_ge_None in Hx. unfold len in Hrange. lia.
Qed.

End RandFacts.

(** ** The infected set *)

Section InfectedSet.
Import PeopleTracker.

Implicit Types (infected : gmap Z PersonProfile.t) (person : PersonProfile.t).

Lemma contains_true infected person :
  PersonSet.contains infected person = true
  <-> is_Some (infected !! PersonProfile.id person).
Proof. unfold PersonSet.contains. apply bool_decide_eq_true. Qed.

Lemma add_subseteq infected person : infected ⊆ PersonSet.add infected person.
Proof.
  unfold PersonSet.add.
  destruct (PersonSet.contains infected person) eqn:Hc; [reflexivity | ].
  apply insert_subseteq.
  destruct (infected !! PersonProfile.id person) eqn:Hl; [ | reflexivity].
  assert (PersonSet.contains infected person = true)
    by (apply contains_true; eauto).
  congruence.
Qed.

Lemma contains_add infected person :
  PersonSet.contains (PersonSet.add infected person) person = true.
Proof.
  unfold PersonSet.add.
  destruct (PersonSet.contains infected person) eqn:Hc; [exact Hc | ].
  apply contains_true. rewrite lookup_insert_eq. eauto.
Qed.

Lemma contains_weaken infected infected' person :
  infected ⊆ infected' ->
  PersonSet.contains infected person = true ->
  PersonSet.contains infected' person = true.
Proof.
  intros Hsub H. apply contains_true. apply contains_true in H.
  eapply lookup_weaken_is_Some; eauto.
Qed.

(** What one pass of the loop body does: it appends one record for the
    person, whose pre-visit flag is the membership test on the set as it
    stands, and adds the person to the set when the post-visit flag is set. *)
Lemma update_person_Ok day loc count person infected day_summary g
      infected' day_summary' g' :
  update_person day loc count person (infected, day_summary) g
  = Ok ((infected', day_summary'), g') ->
  exists post wore_mask social_distanced,
    day_summary'
    = day_summary
      ++ [PersonDay.mk day person loc (PersonSet.contains infected person) post
            wore_mask social_distanced]
    /\ infected' = (if post then PersonSet.add infected person else infected)
    /\ (PersonSet.contains infected person = true -> post = true).
Proof.
  unfold update_person. intros H.
  apply bind_Ok in H as (wm & g1 & _ & H).
  apply bind_Ok in H as (sd & g2 & _ & H).
  apply bind_Ok in H as ([pre post] & g3 & Hout & H).
  apply ret_Ok in H. injection H as -> -> ->.
  exists post, wm, sd.
  destruct (PersonSet.contains infected person) eqn:Hc.
  - rewrite andb_false_r in Hout. apply ret_Ok in Hout.
    injection Hout as -> -> ->. auto.
  - destruct (count =? 0); cbn [andb negb] in Hout.
    + apply ret_Ok in Hout. injection Hout as -> -> ->.
      repeat split; auto; discriminate.
    + apply bind_Ok in Hout as (p & g4 & _ & Hout).
      apply bind_Ok in Hout as (r & g5 & _ & Hout).
      apply ret_Ok in Hout. injection Hout as -> -> ->.
      repeat split; auto; discriminate.
Qed.

Lemma update_person_grows day loc count person st g st' g' :
  update_person day loc count person st g = Ok (st', g') -> st.1 ⊆ st'.1.
Proof.
  destruct st as [infected day_summary], st' as [infected' day_summary'].
  intros H. apply update_person_Ok in H as (post & wm & sd & _ & Hinf & _).
  cbn. rewrite Hinf. destruct post; [apply add_subseteq | reflexivity].
Qed.

Lemma update_location_grows day group st g st' g' :
  update_location day group st g = Ok (st', g') -> st.1 ⊆ st'.1.
Proof.
  unfold update_location. destruct group as [location people].
  apply (for_each_ind (λ _ s, st.1 ⊆ s.1)); [ | reflexivity].
  intros done x todo s g1 s1 g2 _ HP Hx.
  etransitivity; [exact HP | ]. eapply update_person_grows; eauto.
Qed.

Lemma update_infection_Ok self groups g summary self' g' :
  update_infection self groups g = Ok ((summary, self'), g') ->
  exists infected' day_summary,
    for_each groups (update_location (simulated_day self))
      (infected_population self, []) g = Ok ((infected', day_summary), g')
    /\ summary = Sort.sort sort_key day_summary
    /\ self' = mk (simulated_day self) (population self)
                 (available_locations self) infected'.
Proof.
  unfold update_infection. intros H.
  apply bind_Ok in H as ([infected' day_summary] & g1 & Hloop & H).
  apply ret_Ok in H. injection H as -> -> ->. eauto.
Qed.

Lemma simulate_day_Ok self g summary self' g' :
  simulate_day self g = Ok ((summary, self'), g') ->
  exists assignment groups g1 self1,
    determine_locations self g = Ok ((assignment, groups), g1)
    /\ update_infection self groups g1 = Ok ((summary, self1), g')
    /\ self' = mk (simulated_day self1 + 1) (population self1)
                 (available_locations self1) (infected_population self1).
Proof.
  unfold simulate_day. intros H.
  apply bind_Ok in H as ([assignment groups] & g1 & Hloc & H).
  apply bind_Ok in H as ([summary1 self1] & g2 & Hupd & H).
  apply ret_Ok in H. injection H as -> -> ->.
  exists assignment, groups, g1, self1. auto.
Qed.

Lemma simulate_day_grows self g summary self' g' :
  simulate_day self g = Ok ((summary, self'), g') ->
  infected_population self ⊆ infected_population self'.
Proof.
  intros H.
  apply simulate_day_Ok in H as (assignment & groups & g1 & self1 & _ & Hupd & ->).
  apply update_infection_Ok in Hupd as (infected' & day_summary & Hloop & _ & ->).
  cbn.
  revert Hloop.
  apply (for_each_ind (λ _ s, infected_population self ⊆ s.1)); [ | reflexivity].
  intros done x todo s g2 s1 g3 _ HP Hx.
  etransitivity; [exact HP | ]. eapply update_location_grows; eauto.
Qed.

End InfectedSet.

(** C1: across any sequence of [simulate_day()] calls (a single call
    included) every member of the infected set stays a member, and the
    size of the set does not decrease. *)
Theorem infected_population_only_grows :
  forall self self' : PeopleTracker.t,
    rtc simulate_day_call self self' ->
    (forall person,
        PersonSet.contains (PeopleTracker.infected_population self) person = true ->
        PersonSet.contains (PeopleTracker.infected_population self') person = true)
    /\ (size (PeopleTracker.infected_population self)
        <= size (PeopleTracker.infected_population self'))%nat.
Proof.
  intros self self' Hcalls.
  assert (Hsub : PeopleTracker.infected_population self
                 ⊆ PeopleTracker.infected_population self').
  { induction Hcalls as [self | self mid self' (g & summary & g' & Hcall) _ IH].
    - reflexivity.
    - etransitivity; [ | exact IH]. eapply simulate_day_grows; eauto. }
  split.
  - intros person. apply contains_weaken. exact Hsub.
  - apply map_subseteq_size. exact Hsub.
Qed.

(** ** Sorting the day summary *)

Section Sorting.
Import Sort.

Lemma key_le_spec (a b : Z * Z * Z) :
  key_le a b = true
  <-> a.1.1 < b.1.1
      \/ (a.1.1 = b.1.1 /\ (a.1.2 < b.1.2 \/ (a.1.2 = b.1.2 /\ a.2 <= b.2))).
Proof.
  destruct a as [[a1 a2] a3], b as [[b1 b2] b3]. unfold key_le. cbn.
  rewrite !orb_true_iff, !andb_true_iff, !orb_true_iff, !andb_true_iff.
  rewrite !Z.ltb_lt, !Z.eqb_eq, Z.leb_le. reflexivity.
Qed.

Lemma key_le_total (a b : Z * Z * Z) : key_le a b = true \/ key_le b a = true.
Proof. rewrite !key_le_spec. lia. Qed.

Lemma key_le_trans (a b c : Z * Z * Z) :
  key_le a b = true -> key_le b c = true -> key_le a c = true.
Proof. rewrite !key_le_spec. lia. Qed.

Lemma StronglySorted_weaken {B} (R1 R2 : B -> B -> Prop) (l : list B) :
  (forall a b, R1 a b -> R2 a b) -> StronglySorted R1 l -> StronglySorted R2 l.
Proof.
  intros Himp. induction 1 as [| a l Hl IH Ha]; constructor; [exact IH | ].
  eapply Forall_impl; [exact Ha | ]. intros b. apply Himp.
Qed.

Context {A : Type} (key : A -> Z * Z * Z).

Let ordered (x y : A) : Prop := key_le (key x) (key y) = true.

Lemma insert_perm (x : A) (l : list A) : Permutation (insert key x l) (x :: l).
Proof.
  induction l as [| y l IH]; cbn; [reflexivity | ].
  destruct (key_le (key x) (key y)); [reflexivity | ].
  rewrite IH. apply perm_swap.
Qed.

Lemma sort_perm (l : list A) : Permutation (sort key l) l.
Proof.
  induction l as [| x l IH]; cbn; [reflexivity | ].
  rewrite insert_perm. now rewrite IH.
Qed.

Lemma insert_sorted (x : A) (l : list A) :
  StronglySorted ordered l -> StronglySorted ordered (insert key x l).
Proof.
  induction l as [| y l IH]; intros Hs; cbn.
  - repeat constructor.
  - apply StronglySorted_inv in Hs as [Hl Hy].
    destruct (key_le (key x) (key y)) eqn:Hxy.
    + constructor; [constructor; assumption | ].
      constructor; [exact Hxy | ].
      eapply Forall_impl; [exact Hy | ].
      intros z Hz. eapply key_le_trans; [exact Hxy | exact Hz].
    + constructor; [apply IH; exact Hl | ].
      eapply Permutation_Forall; [symmetry; apply insert_perm | ].
      constructor; [ | exact Hy].
      destruct (key_le_total (key x) (key y)) as [H | H]; [congruence | exact H].
Qed.

Lemma sort_sorted (l : list A) : StronglySorted ordered (sort key l).
Proof.
  induction l as [| x l IH]; cbn; [constructor | ].
  apply insert_sorted. exact IH.
Qed.

End Sorting.

(** C7: the list returned by [simulate_day()] is sorted ascending by
    (location category ordinal, location instance id, person id), whatever
    the random assignment and the order of the location groups. *)
Theorem simulate_day_summary_sorted :
  forall (self : PeopleTracker.t) (g : RandomState) summary self' g',
    PeopleTracker.simulate_day self g = Ok ((summary, self'), g') ->
    StronglySorted record_le summary.
Proof.
  intros self g summary self' g' H.
  apply simulate_day_Ok in H as (assignment & groups & g1 & self1 & _ & Hupd & _).
  apply update_infection_Ok in Hupd as (infected' & day_summary & _ & -> & _).
  eapply StronglySorted_weaken; [ | apply (sort_sorted PeopleTracker.sort_key)].
  intros a b Hab. apply key_le_spec in Hab. exact Hab.
Qed.

(** ** One record per person *)

Section Records.
Import PeopleTracker.

Lemma occupants_app groups location people :
  occupants (groups ++ [(location, people)]) = occupants groups ++ people.
Proof.
  unfold occupants. rewrite map_app, concat_app. cbn. now rewrite app_nil_r.
Qed.

Lemma occupants_setdefault_append groups location person :
  Permutation
    (occupants (Dict.setdefault_append LocationProfile.same groups location person))
    (occupants groups ++ [person]).
Proof.
  unfold occupants.
  induction groups as [| [k xs] groups IH]; cbn; [reflexivity | ].
  destruct (LocationProfile.same k location); cbn.
  - rewrite <- !app_assoc. apply Permutation_app_head. apply Permutation_app_comm.
  - rewrite IH. now rewrite app_assoc.
Qed.

Lemma determine_locations_Ok self g assignment groups g' :
  determine_locations self g = Ok ((assignment, groups), g') ->
  Permutation (occupants groups) (population self).
Proof.
  unfold determine_locations.
  apply (for_each_ind (λ done st, Permutation (occupants st.2) done));
    [ | reflexivity].
  intros done person todo [la gl] g1 [la' gl'] g2 _ HP H. cbn in *.
  apply bind_Ok in H as (location & g3 & _ & H).
  apply ret_Ok in H. injection H as -> -> ->.
  etransitivity; [apply occupants_setdefault_append | ].
  apply Permutation_app_tail. exact HP.
Qed.

Lemma determine_locations_total self g :
  available_locations self <> [] ->
  exists assignment groups g',
    determine_locations self g = Ok ((assignment, groups), g').
Proof.
  intros Hne. unfold determine_locations.
  match goal with
  | |- exists _ _ _, for_each ?xs ?body ?s ?g = _ =>
      destruct (for_each_returns body xs) with s g as ([la gl] & g' & Hrun);
        [ | eauto]
  end.
  intros person [la gl] g1.
  destruct (choice_total (available_locations self) g1 Hne)
    as (location & g2 & Hc & _).
  do 2 eexists.
  eapply bind_Ok_intro; [exact Hc | reflexivity].
Qed.

Lemma count_infected_nonneg infected people : 0 <= count_infected infected people.
Proof.
  unfold count_infected.
  assert (Hgen : forall acc, 0 <= acc ->
            0 <= foldl (λ c person,
                          if PersonSet.contains infected person then c + 1 else c)
                   acc people).
  { induction people as [| p people IH]; intros acc Hacc; cbn; [exact Hacc | ].
    apply IH. destruct (PersonSet.contains infected p); lia. }
  apply Hgen. lia.
Qed.

Lemma will_wear_mask_total person g :
  exists b g', PersonProfile.will_wear_mask person g = Ok (b, g').
Proof. unfold PersonProfile.will_wear_mask. cbn. eauto. Qed.

Lemma will_social_distance_total person g :
  exists b g', PersonProfile.will_social_distance person g = Ok (b, g').
Proof. unfold PersonProfile.will_social_distance. cbn. eauto. Qed.

Lemma update_person_total day loc count person st g :
  0 <= count ->
  exists st' g', update_person day loc count person st g = Ok (st', g').
Proof.
  intros Hcount. destruct st as [infected day_summary]. unfold update_person.
  destruct (will_wear_mask_total person g) as (wm & g1 & Hwm).
  destruct (will_social_distance_total person g1) as (sd & g2 & Hsd).
  assert (Hout : exists out g3,
             (if (count =? 0) && negb (PersonSet.contains infected person)
              then mret (false, false)
              else if PersonSet.contains infected person
              then mret (true, true)
              else
                infection_probability ←
                  lift (InfectionProbabilitiesMapper.get_infection_probability
                          loc count wm sd);
                r ← random.random;
                mret (false, Py.float_lt r infection_probability)
              : Rand (bool * bool)) g2 = Ok (out, g3)).
  { destruct ((count =? 0) && negb (PersonSet.contains infected person));
      [cbn; eauto | ].
    destruct (PersonSet.contains infected person); [cbn; eauto | ].
    destruct (get_infection_probability_total loc count wm sd Hcount) as (p & Hp).
    destruct (random_total g2) as (r & g3 & Hr).
    do 2 eexists.
    eapply bind_Ok_intro; [unfold lift; rewrite Hp; reflexivity | ].
    eapply bind_Ok_intro; [exact Hr | reflexivity]. }
  destruct Hout as ([pre post] & g3 & Hout).
  do 2 eexists.
  eapply bind_Ok_intro; [exact Hwm | ].
  eapply bind_Ok_intro; [exact Hsd | ].
  eapply bind_Ok_intro; [exact Hout | ].
  reflexivity.
Qed.

Lemma update_location_persons day location people st g st' g' :
  update_location day (location, people) st g = Ok (st', g') ->
  map PersonDay.person st'.2 = map PersonDay.person st.2 ++ people.
Proof.
  unfold update_location.
  apply (for_each_ind
           (λ done s, map PersonDay.person s.2 = map PersonDay.person st.2 ++ done));
    [ | now rewrite app_nil_r].
  intros done x todo [inf sum] g1 [inf' sum'] g2 _ HP H. cbn in *.
  apply update_person_Ok in H as (post & wm & sd & -> & _ & _).
  rewrite map_app, HP. cbn. now rewrite <- app_assoc.
Qed.

Lemma update_location_total day group st g :
  exists st' g', update_location day group st g = Ok (st', g').
Proof.
  destruct group as [location people]. unfold update_location.
  apply for_each_returns. intros x s g1.
  apply update_person_total. apply count_infected_nonneg.
Qed.

Lemma simulate_day_persons self g summary self' g' :
  simulate_day self g = Ok ((summary, self'), g') ->
  Permutation (map PersonDay.person summary) (population self).
Proof.
  intros H.
  apply simulate_day_Ok in H as (assignment & groups & g1 & self1 & Hloc & Hupd & _).
  apply update_infection_Ok in Hupd as (infected' & day_summary & Hloop & -> & _).
  apply determine_locations_Ok in Hloc.
  rewrite (Permutation_map _ (sort_perm sort_key day_summary)).
  rewrite <- Hloc.
  assert (Hmap : map PersonDay.person day_summary = occupants groups);
    [ | now rewrite Hmap].
  refine (for_each_ind
            (λ done s, map PersonDay.person s.2 = occupants done)
            _ _ _ (infected_population self, []) _ (infected', day_summary) _
            eq_refl Hloop).
  intros done [location people] todo s g2 s' g3 _ HP H.
  apply update_location_persons in H.
  rewrite H, HP. symmetry. apply occupants_app.
Qed.

Lemma simulate_day_total self g :
  available_locations self <> [] ->
  exists summary self' g', simulate_day self g = Ok ((summary, self'), g').
Proof.
  intros Hne.
  destruct (determine_locations_total self g Hne) as (assignment & groups & g1 & Hloc).
  destruct (for_each_returns (update_location (simulated_day self)) groups)
    with (infected_population self, @nil PersonDay.t) g1
    as ([infected' day_summary] & g2 & Hrun);
    [intros x s g3; apply update_location_total | ].
  do 3 eexists. unfold simulate_day.
  eapply bind_Ok_intro; [exact Hloc | ].
  eapply bind_Ok_intro;
    [unfold update_infection; eapply bind_Ok_intro; [exact Hrun | reflexivity] | ].
  reflexivity.
Qed.

End Records.

Section Counting.

Lemma filter_none {A} (f : A -> bool) (l : list A) :
  (forall x, In x l -> f x = false) -> List.filter f l = [].
Proof.
  induction l as [| a l IH]; intros H; cbn; [reflexivity | ].
  rewrite (H a) by (left; reflexivity). apply IH. intros x Hx. apply H. now right.
Qed.

Lemma filter_perm {A} (f : A -> bool) (l l' : list A) :
  Permutation l l' -> Permutation (List.filter f l) (List.filter f l').
Proof.
  induction 1 as [| x l l' _ IH | x y l | l1 l2 l3 _ IH1 _ IH2]; cbn.
  - reflexivity.
  - destruct (f x); [now constructor | exact IH].
  - destruct (f x), (f y); try reflexivity. apply perm_swap.
  - etransitivity; eauto.
Qed.

Lemma filter_map_length {A B} (h : A -> B) (f : B -> bool) (l : list A) :
  length (List.filter (λ a, f (h a)) l) = length (List.filter f (map h l)).
Proof.
  induction l as [| a l IH]; cbn; [reflexivity | ].
  destruct (f (h a)); cbn; now rewrite IH.
Qed.

(** In a list without duplicate ids, exactly one entry carries the id of
    any given member. *)
Lemma one_per_id (l : list PersonProfile.t) (person : PersonProfile.t) :
  List.NoDup (map PersonProfile.id l) ->
  In person l ->
  length (List.filter (λ q, PersonProfile.id q =? PersonProfile.id person) l)
  = 1%nat.
Proof.
  induction l as [| a l IH]; intros Hnd Hin; [destruct Hin | ].
  cbn in Hnd. apply List.NoDup_cons_iff in Hnd as [Ha Hnd]. cbn.
  destruct Hin as [-> | Hin].
  - rewrite Z.eqb_refl. cbn. rewrite filter_none; [reflexivity | ].
    intros x Hx. apply Z.eqb_neq. intros Heq. apply Ha. rewrite <- Heq.
    apply in_map. exact Hx.
  - replace (PersonProfile.id a =? PersonProfile.id person) with false.
    + apply IH; assumption.
    + symmetry. apply Z.eqb_neq. intros Heq. apply Ha. rewrite Heq.
      apply in_map. exact Hin.
Qed.

End Counting.

(** C2: one call of [simulate_day()] on a tracker with distinct person ids
    and at least one location returns, and the returned list holds exactly
    one record per person of the population. *)
Theorem simulate_day_one_record_per_person :
  forall (self : PeopleTracker.t) (g : RandomState),
    well_formed self ->
    exists summary self' g',
      PeopleTracker.simulate_day self g = Ok ((summary, self'), g')
      /\ length summary = length (PeopleTracker.population self)
      /\ Permutation (map PersonDay.person summary) (PeopleTracker.population self)
      /\ forall person,
           In person (PeopleTracker.population self) ->
           length (records_of (PersonProfile.id person) summary) = 1%nat.
Proof.
  intros self g [Hne Hnd].
  destruct (simulate_day_total self g Hne) as (summary & self' & g' & Hrun).
  exists summary, self', g'.
  pose proof (simulate_day_persons _ _ _ _ _ Hrun) as Hperm.
  split; [exact Hrun | ]. split; [ | split; [exact Hperm | ]].
  - rewrite <- (length_map PersonDay.person). apply Permutation_length. exact Hperm.
  - intros person Hin. unfold records_of.
    rewrite (filter_map_length PersonDay.person
               (λ q, PersonProfile.id q =? PersonProfile.id person)).
    rewrite (Permutation_length (filter_perm _ _ _ Hperm)).
    apply one_per_id; assumption.
Qed.

(** ** The pre-visit flag *)

Section PreVisit.
Import PeopleTracker.

Implicit Types (infected : gmap Z PersonProfile.t) (person : PersonProfile.t).

Lemma contains_add_inv infected x person :
  PersonSet.contains (PersonSet.add infected x) person = true ->
  PersonSet.contains infected person = true
  \/ PersonProfile.id person = PersonProfile.id x.
Proof.
  unfold PersonSet.add.
  destruct (PersonSet.contains infected x); [now left | ].
  rewrite !contains_true.
  destruct (decide (PersonProfile.id x = PersonProfile.id person)) as [Heq | Hne].
  - now right.
  - rewrite lookup_insert_ne by exact Hne. now left.
Qed.

Lemma contains_same_id infected person person' :
  PersonProfile.id person = PersonProfile.id person' ->
  PersonSet.contains infected person = PersonSet.contains infected person'.
Proof. unfold PersonSet.contains. now intros ->. Qed.

(** Invariant of the infection update: [done] lists the people already
    processed today, [infected0] is the infected set at the start of the
    call. *)
Let invariant infected0 (done : list PersonProfile.t)
    (st : gmap Z PersonProfile.t * list PersonDay.t) : Prop :=
  infected0 ⊆ st.1
  /\ (forall person,
         PersonSet.contains st.1 person = true ->
         PersonSet.contains infected0 person = true
         \/ In (PersonProfile.id person) (map PersonProfile.id done))
  /\ (forall r,
         In r st.2 ->
         PersonDay.pre_visit_covid r
         = PersonSet.contains infected0 (PersonDay.person r)).

Lemma update_person_invariant infected0 done day loc count x st g st' g' :
  invariant infected0 done st ->
  ~ In (PersonProfile.id x) (map PersonProfile.id done) ->
  update_person day loc count x st g = Ok (st', g') ->
  invariant infected0 (done ++ [x]) st'.
Proof.
  destruct st as [inf sum], st' as [inf' sum'].
  intros (Hsub & Hnew & Hpre) Hfresh H.
  apply update_person_Ok in H as (post & wm & sd & Hsum & Hinf & _).
  cbn in *. subst inf' sum'. repeat split; cbn.
  - destruct post; [ | exact Hsub].
    etransitivity; [exact Hsub | apply add_subseteq].
  - intros person Hc. rewrite map_app, in_app_iff. cbn.
    assert (Hcases : PersonSet.contains inf person = true
                     \/ PersonProfile.id person = PersonProfile.id x).
    { destruct post; [apply contains_add_inv; exact Hc | now left]. }
    destruct Hcases as [Hc' | Heq]; [ | right; right; left; congruence].
    destruct (Hnew person Hc') as [H0 | Hd]; [now left | right; now left].
  - intros r Hr. apply in_app_iff in Hr as [Hr | [<- | []]]; [now apply Hpre | ].
    cbn. destruct (PersonSet.contains inf x) eqn:Hc.
    + destruct (Hnew x Hc) as [H0 | Hd]; [now rewrite H0 | contradiction].
    + destruct (PersonSet.contains infected0 x) eqn:H0; [ | reflexivity].
      rewrite (contains_weaken _ _ _ Hsub H0) in Hc. discriminate.
Qed.

Lemma update_location_invariant infected0 done day location people st g st' g' :
  invariant infected0 done st ->
  List.NoDup (map PersonProfile.id (done ++ people)) ->
  update_location day (location, people) st g = Ok (st', g') ->
  invariant infected0 (done ++ people) st'.
Proof.
  intros Hinv Hnd. unfold update_location.
  apply (for_each_ind (λ inner s, invariant infected0 (done ++ inner) s));
    [ | now rewrite app_nil_r].
  intros inner x todo s g1 s1 g2 Hpeople HP Hx.
  rewrite app_assoc. eapply update_person_invariant; [exact HP | | exact Hx].
  rewrite Hpeople, app_assoc, map_app in Hnd. cbn in Hnd.
  apply NoDup_remove_2 in Hnd. intros Hin. apply Hnd.
  apply in_or_app. now left.
Qed.

Lemma occupants_split done location people todo :
  occupants (done ++ (location, people) :: todo)
  = (occupants done ++ people) ++ occupants todo.
Proof.
  unfold occupants. rewrite map_app, concat_app. cbn. now rewrite app_assoc.
Qed.

Lemma update_infection_invariant self groups g summary self' g' :
  List.NoDup (map PersonProfile.id (occupants groups)) ->
  update_infection self groups g = Ok ((summary, self'), g') ->
  forall r,
    In r summary ->
    PersonDay.pre_visit_covid r
    = PersonSet.contains (infected_population self) (PersonDay.person r).
Proof.
  intros Hnd H.
  apply update_infection_Ok in H as (infected' & day_summary & Hloop & -> & _).
  assert (Hinv : invariant (infected_population self) (occupants groups)
                   (infected', day_summary)).
  { refine (for_each_ind
              (λ done s, invariant (infected_population self) (occupants done) s)
              _ _ _ (infected_population self, []) _ (infected', day_summary) _
              _ Hloop).
    - intros done [location people] todo s g1 s1 g2 Hgroups HP Hx.
      rewrite occupants_app. eapply update_location_invariant; [exact HP | | exact Hx].
      rewrite Hgroups, occupants_split, map_app in Hnd.
      apply NoDup_app_remove_r in Hnd. exact Hnd.
    - repeat split; cbn; [reflexivity | now left | intros r []]. }
  destruct Hinv as (_ & _ & Hpre). intros r Hr. apply Hpre. cbn.
  eapply Permutation_in; [apply sort_perm | exact Hr].
Qed.

End PreVisit.

(** C6: the pre-visit flag of a record is the membership of its person in
    the infected set at the moment the person is processed; and on a
    tracker with distinct person ids it is the membership in the infected
    set at the start of the [simulate_day()] call, because only other
    people are processed in between. *)
Theorem pre_visit_covid_iff_infected_before :
  (forall day loc count person infected day_summary g infected' day_summary' g',
      PeopleTracker.update_person day loc count person (infected, day_summary) g
      = Ok ((infected', day_summary'), g') ->
      exists r,
        day_summary' = day_summary ++ [r]
        /\ PersonDay.person r = person
        /\ (PersonDay.pre_visit_covid r = true
            <-> PersonSet.contains infected person = true))
  /\ (forall (self : PeopleTracker.t) (g : RandomState) summary self' g',
         List.NoDup (map PersonProfile.id (PeopleTracker.population self)) ->
         PeopleTracker.simulate_day self g = Ok ((summary, self'), g') ->
         forall r,
           In r summary ->
           (PersonDay.pre_visit_covid r = true
            <-> PersonSet.contains (PeopleTracker.infected_population self)
                  (PersonDay.person r) = true)).
Proof.
  split.
  - intros day loc count person infected day_summary g infected' day_summary' g' H.
    apply update_person_Ok in H as (post & wm & sd & -> & _ & _).
    eexists. split; [reflexivity | ]. cbn. split; [reflexivity | reflexivity].
  - intros self g summary self' g' Hnd H r Hr.
    apply simulate_day_Ok in H
        as (assignment & groups & g1 & self1 & Hloc & Hupd & _).
    apply determine_locations_Ok in Hloc.
    assert (Hnd' : List.NoDup (map PersonProfile.id (occupants groups))).
    { eapply Permutation_NoDup; [ | exact Hnd].
      apply Permutation_map. symmetry. exact Hloc. }
    rewrite (update_infection_invariant _ _ _ _ _ _ Hnd' Hupd r Hr). reflexivity.
Qed.

(** ** Construction *)

Section Construction.
Import PeopleTracker.

Lemma range_length (n : Z) : length (range n) = Z.to_nat n.
Proof. unfold range. now rewrite length_map, length_seq. Qed.

Lemma range_NoDup (n : Z) : List.NoDup (range n).
Proof.
  unfold range. apply Finite.Injective_map_NoDup; [ | apply seq_NoDup].
  intros a b. apply Nat2Z.inj.
Qed.

Lemma range_nonpos (n : Z) : n <= 0 -> range n = [].
Proof. intros Hn. unfold range. now replace (Z.to_nat n) with 0%nat by lia. Qed.

Lemma generate_population_Ok count mask_wearing_rate social_distancing_rate g :
  exists population g',
    generate_population count mask_wearing_rate social_distancing_rate g
    = Ok (population, g')
    /\ map PersonProfile.id population = range count.
Proof.
  unfold generate_population.
  apply (for_each_total (λ done population, map PersonProfile.id population = done));
    [ | reflexivity].
  intros done i todo population g1 _ HP.
  destruct (random_total g1) as (r1 & g2 & H1).
  destruct (random_total g2) as (r2 & g3 & H2).
  do 2 eexists. split.
  - eapply bind_Ok_intro; [exact H1 | ].
    eapply bind_Ok_intro; [exact H2 | reflexivity].
  - rewrite map_app, HP. reflexivity.
Qed.

Lemma randint_1_5_Ok g :
  exists r g', random.randint 1 5 g = Ok (r, g') /\ 1 <= r.
Proof.
  unfold random.randint. cbn [Z.ltb Z.add Z.sub Z.compare Z.opp Z.pos_sub].
  destruct (randbelow_Ok 5 g) as (r & g' & Hr & Hrange).
  exists (1 + r), g'. split.
  - change (0 <? 5 + 1 - 1) with true. cbn iota.
    eapply bind_Ok_intro; [exact Hr | reflexivity].
  - lia.
Qed.

Lemma generate_available_locations_Ok g :
  exists available_locations g',
    generate_available_locations g = Ok (available_locations, g')
    /\ available_locations <> [].
Proof.
  unfold generate_available_locations.
  destruct (for_each_total
              (λ (done : list Location.t) (locs : list LocationProfile.t),
                 (length done <= length locs)%nat)
              (λ location available_locations,
                 location_count ← random.randint 1 5;
                 for_each (range location_count)
                   (λ i available_locations,
                      mret (available_locations
                            ++ [LocationProfile.mk (length available_locations)
                                  i location]))
                   available_locations)
              Location.all) with (@nil LocationProfile.t) g
    as (locs & g' & Hrun & Hlen).
  - intros done location todo locs g1 _ HP.
    destruct (randint_1_5_Ok g1) as (c & g2 & Hc & Hge).
    destruct (for_each_total
                (λ (inner : list Z) (s : list LocationProfile.t),
                   length s = (length locs + length inner)%nat)
                (λ i available_locations,
                   mret (available_locations
                         ++ [LocationProfile.mk (length available_locations)
                               i location]))
                (range c)) with locs g2 as (locs' & g3 & Hinner & Hlen).
    + intros inner i todo' s g4 _ Hs. do 2 eexists. split; [reflexivity | ].
      rewrite !length_app, Hs. cbn. lia.
    + cbn. lia.
    + exists locs', g3. split.
      * eapply bind_Ok_intro; [exact Hc | exact Hinner].
      * rewrite Hlen, range_length, length_app. cbn. lia.
  - cbn. lia.
  - exists locs, g'. split; [exact Hrun | ].
    intros ->. cbn in Hlen. lia.
Qed.

Lemma sample_loop_total {A} (k n : nat) (pool : list A) g :
  (k <= n)%nat -> (n <= length pool)%nat ->
  exists r g', random.sample_loop pool n k g = Ok (r, g').
Proof.
  revert n pool g. induction k as [| k IH]; intros n pool g Hk Hn; cbn.
  - do 2 eexists. reflexivity.
  - destruct (randbelow_Ok (Z.of_nat n) g) as (j & g1 & Hj & Hrange).
    specialize (Hrange ltac:(lia)).
    destruct (lookup_lt_is_Some_2 pool (Z.to_nat j) ltac:(lia)) as [x Hx].
    destruct (lookup_lt_is_Some_2 pool (n - 1)%nat ltac:(lia)) as [y Hy].
    destruct (IH (n - 1)%nat (<[Z.to_nat j := y]> pool) g1) as (rest & g2 & Hrest).
    + lia.
    + rewrite length_insert. lia.
    + do 2 eexists. eapply bind_Ok_intro; [exact Hj | ].
      rewrite Hx, Hy. eapply bind_Ok_intro; [exact Hrest | reflexivity].
Qed.

Lemma sample_outcome {A} (population : list A) (k : Z) g :
  (0 <= k <= len population ->
   exists r g', random.sample population k g = Ok (r, g'))
  /\ (k < 0 \/ len population < k ->
      random.sample population k g = Raise ValueError).
Proof.
  unfold random.sample, len. split.
  - intros Hk.
    replace ((0 <=? k) && (k <=? Z.of_nat (length population))) with true
      by (symmetry; apply andb_true_iff; split; apply Z.leb_le; lia).
    cbn [negb]. apply sample_loop_total; lia.
  - intros Hk.
    replace ((0 <=? k) && (k <=? Z.of_nat (length population))) with false;
      [reflexivity | ].
    symmetry. apply andb_false_iff. rewrite !Z.leb_gt. lia.
Qed.

(** Construction runs the two generators, which cannot raise, and then
    draws the initial sample, which decides the outcome. *)
Lemma init_outcome count initial_infection_rate mask_wearing_rate
      social_distancing_rate g :
  exists population locations g2,
    map PersonProfile.id population = range count
    /\ locations <> []
    /\ __init__ count initial_infection_rate mask_wearing_rate
         social_distancing_rate g
       = match get_initial_infected_population population initial_infection_rate g2
         with
         | Ok (infected, g3) =>
             Ok (mk 0 population locations (PersonSet.of_list infected), g3)
         | Raise e => Raise e
         end.
Proof.
  destruct (generate_population_Ok count mask_wearing_rate social_distancing_rate g)
    as (population & g1 & Hpop & Hids).
  destruct (generate_available_locations_Ok g1) as (locations & g2 & Hloc & Hne).
  exists population, locations, g2. split; [exact Hids | ]. split; [exact Hne | ].
  unfold __init__.
  eapply bind_Ok_intro; [exact Hpop | ].
  eapply bind_Ok_intro; [exact Hloc | ].
  unfold mbind at 1, Rand_bind.
  destruct (get_initial_infected_population population initial_infection_rate g2)
    as [[infected g3] | e]; reflexivity.
Qed.

Lemma population_len population count :
  map PersonProfile.id population = range count -> len population = Z.max 0 count.
Proof.
  intros H. unfold len. rewrite <- (length_map PersonProfile.id), H, range_length.
  lia.
Qed.

(** The initial sample raises exactly when its size cannot be computed or
    is out of range. *)
Lemma get_initial_infected_population_outcome population rate g :
  match initial_sample_size (len population) rate with
  | Ok k =>
      if (0 <=? k) && (k <=? len population)
      then exists infected g',
             get_initial_infected_population population rate g = Ok (infected, g')
      else get_initial_infected_population population rate g = Raise ValueError
  | Raise e => get_initial_infected_population population rate g = Raise e
  end.
Proof.
  unfold initial_sample_size, get_initial_infected_population.
  destruct (Py.float_of_int (len population)) as [n | e]; [ | reflexivity].
  cbn [mbind result_bind].
  destruct (Py.int_of_float (n * rate)) as [k | e] eqn:Hk.
  - destruct ((0 <=? k) && (k <=? len population)) eqn:Hrange.
    + apply andb_true_iff in Hrange as [H0 Hn].
      apply Z.leb_le in H0. apply Z.leb_le in Hn.
      destruct (sample_outcome population k g) as [Hok _].
      destruct (Hok ltac:(lia)) as (infected & g' & Hs).
      exists infected, g'. unfold mbind, Rand_bind, lift. rewrite Hk. exact Hs.
    + apply andb_false_iff in Hrange. rewrite !Z.leb_gt in Hrange.
      destruct (sample_outcome population k g) as [_ Hbad].
      unfold mbind, Rand_bind, lift. rewrite Hk. apply Hbad. lia.
  - unfold mbind, Rand_bind, lift. rewrite Hk. reflexivity.
Qed.

(** [0.0 * rate] truncates to 0 for every rate in [0, 1]. *)
Lemma zero_sample_size (rate : float) :
  rate_in_unit_interval rate = true -> initial_sample_size 0 rate = Ok 0.
Proof.
  unfold rate_in_unit_interval. intros H.
  apply andb_true_iff in H as [H0 H1].
  rewrite leb_spec in H0, H1.
  unfold initial_sample_size.
  change (Py.float_of_int 0) with (Ok 0%float). cbn [mbind result_bind].
  unfold Py.int_of_float. rewrite mul_spec.
  change (Prim2SF 0) with (S754_zero false) in *.
  destruct (Prim2SF rate) as [s | [ | ] | | s m e]; try reflexivity;
    vm_compute in H0; vm_compute in H1; discriminate.
Qed.

Lemma init_empty_population count initial_infection_rate mask_wearing_rate
      social_distancing_rate g :
  count <= 0 ->
  rate_in_unit_interval initial_infection_rate = true ->
  exists self g',
    __init__ count initial_infection_rate mask_wearing_rate social_distancing_rate g
    = Ok (self, g')
    /\ population self = []
    /\ infected_population self = ∅.
Proof.
  intros Hcount Hrate.
  destruct (init_outcome count initial_infection_rate mask_wearing_rate
              social_distancing_rate g)
    as (population & locations & g2 & Hids & _ & Hinit).
  rewrite (range_nonpos count Hcount) in Hids.
  apply map_eq_nil in Hids. subst population.
  assert (Hsample : get_initial_infected_population [] initial_infection_rate g2
                    = Ok ([], g2)).
  { unfold get_initial_infected_population.
    pose proof (zero_sample_size initial_infection_rate Hrate) as Hz.
    unfold initial_sample_size in Hz.
    change (len (@nil PersonProfile.t)) with 0.
    destruct (Py.float_of_int 0) as [n | e]; [ | discriminate].
    cbn [mbind result_bind] in Hz.
    unfold mbind, Rand_bind, lift. rewrite Hz. reflexivity. }
  rewrite Hsample in Hinit.
  do 2 eexists. split; [exact Hinit | ]. split; reflexivity.
Qed.

Lemma init_well_formed count initial_infection_rate mask_wearing_rate
      social_distancing_rate g self g' :
  __init__ count initial_infection_rate mask_wearing_rate social_distancing_rate g
  = Ok (self, g') ->
  well_formed self.
Proof.
  intros H.
  destruct (init_outcome count initial_infection_rate mask_wearing_rate
              social_distancing_rate g)
    as (population & locations & g2 & Hids & Hne & Hinit).
  rewrite Hinit in H.
  destruct (get_initial_infected_population population initial_infection_rate g2)
    as [[infected g3] | e]; [ | discriminate].
  injection H as <- <-. split; cbn; [exact Hne | ].
  rewrite Hids. apply range_NoDup.
Qed.

Lemma simulate_day_well_formed self self' :
  simulate_day_call self self' -> well_formed self -> well_formed self'.
Proof.
  intros (g & summary & g' & H) Hwf.
  apply simulate_day_Ok in H as (assignment & groups & g1 & self1 & _ & Hupd & ->).
  apply update_infection_Ok in Hupd as (infected' & day_summary & _ & _ & ->).
  exact Hwf.
Qed.

End Construction.

(** C9, as stated, fails: a negative population count is an invalid
    configuration, yet construction returns a tracker. *)
Lemma init_accepts_negative_population :
  invalid_configuration (-1) 0.5 0.5 0.5 = true
  /\ (exists self g',
         PeopleTracker.__init__ (-1) 0.5 0.5 0.5 example_oracle = Ok (self, g'))
  /\ (forall e, PeopleTracker.__init__ (-1) 0.5 0.5 0.5 example_oracle <> Raise e).
Proof.
  destruct (init_empty_population (-1) 0.5 0.5 0.5 example_oracle)
    as (self & g' & H & _); [lia | reflexivity | ].
  split; [reflexivity | ]. split; [eauto | ].
  intros e. rewrite H. discriminate.
Qed.

(** C9, amended: construction validates nothing.  It raises exactly when
    the initial sample size [int(len(population) * initial_infection_rate)]
    cannot be computed, is negative or exceeds the population size, where
    a negative population count gives an empty population; the
    mask-wearing and social-distancing rates play no part. *)
Theorem init_raises_iff :
  forall (population_count : Z)
         (initial_infection_rate mask_wearing_rate social_distancing_rate : float)
         (g : RandomState),
    (exists e,
        PeopleTracker.__init__ population_count initial_infection_rate
          mask_wearing_rate social_distancing_rate g = Raise e)
    <-> match initial_sample_size (Z.max 0 population_count) initial_infection_rate
        with
        | Ok k => k < 0 \/ Z.max 0 population_count < k
        | Raise _ => True
        end.
Proof.
  intros count iir mwr sdr g.
  destruct (init_outcome count iir mwr sdr g)
    as (population & locations & g2 & Hids & _ & ->).
  rewrite <- (population_len population count Hids).
  pose proof (get_initial_infected_population_outcome population iir g2) as Hout.
  destruct (initial_sample_size (len population) iir) as [k | e].
  - destruct ((0 <=? k) && (k <=? len population)) eqn:Hrange.
    + destruct Hout as (infected & g3 & ->).
      apply andb_true_iff in Hrange as [H0 Hn].
      apply Z.leb_le in H0. apply Z.leb_le in Hn.
      split; [intros [e He]; discriminate | lia].
    + rewrite Hout. apply andb_false_iff in Hrange. rewrite !Z.leb_gt in Hrange.
      split; [lia | eauto].
  - rewrite Hout. split; eauto.
Qed.

(** C10: with a population count that is zero or negative and rates in
    [0, 1], construction raises nothing and yields an empty population and
    an empty infected set. *)
Theorem init_non_positive_population :
  forall (population_count : Z)
         (initial_infection_rate mask_wearing_rate social_distancing_rate : float)
         (g : RandomState),
    population_count <= 0 ->
    rate_in_unit_interval initial_infection_rate = true ->
    rate_in_unit_interval mask_wearing_rate = true ->
    rate_in_unit_interval social_distancing_rate = true ->
    exists self g',
      PeopleTracker.__init__ population_count initial_infection_rate
        mask_wearing_rate social_distancing_rate g = Ok (self, g')
      /\ PeopleTracker.population self = []
      /\ PeopleTracker.infected_population self = ∅.
Proof.
  intros count iir mwr sdr g Hcount Hiir _ _.
  apply init_empty_population; assumption.
Qed.

Lemma init_non_positive_population_witness :
  exists self g',
    PeopleTracker.__init__ (-3) 0.03 0.7 0.5 example_oracle = Ok (self, g')
    /\ PeopleTracker.population self = []
    /\ PeopleTracker.infected_population self = ∅.
Proof.
  apply (init_non_positive_population (-3) 0.03 0.7 0.5 example_oracle).
  - lia.
  - reflexivity.
  - reflexivity.
  - reflexivity.
Defined.

(** ** The properties on the example run *)

Lemma example_day_runs :
  PeopleTracker.simulate_day example_tracker example_oracle_1
  = Ok ((example_summary, example_after), example_oracle_2).
Proof. vm_compute. reflexivity. Qed.

Lemma example_tracker_distinct_ids :
  List.NoDup (map PersonProfile.id (PeopleTracker.population example_tracker)).
Proof. apply NoDup_ListNoDup. compute_done. Qed.

Lemma infected_population_only_grows_witness :
  (forall person,
      PersonSet.contains (PeopleTracker.infected_population example_tracker) person
      = true ->
      PersonSet.contains (PeopleTracker.infected_population example_after) person
      = true)
  /\ (size (PeopleTracker.infected_population example_tracker)
      <= size (PeopleTracker.infected_population example_after))%nat.
Proof.
  apply (infected_population_only_grows example_tracker example_after).
  apply rtc_once.
  exists example_oracle_1, example_summary, example_oracle_2.
  vm_compute. reflexivity.
Defined.

Lemma simulate_day_one_record_per_person_witness :
  exists summary self' g',
    PeopleTracker.simulate_day example_tracker example_oracle_1
    = Ok ((summary, self'), g')
    /\ length summary = length (PeopleTracker.population example_tracker)
    /\ Permutation (map PersonDay.person summary)
         (PeopleTracker.population example_tracker)
    /\ forall person,
         In person (PeopleTracker.population example_tracker) ->
         length (records_of (PersonProfile.id person) summary) = 1%nat.
Proof.
  apply (simulate_day_one_record_per_person example_tracker example_oracle_1).
  split.
  - vm_compute. discriminate.
  - apply NoDup_ListNoDup. compute_done.
Defined.

Lemma simulate_day_summary_sorted_witness :
  StronglySorted record_le example_summary.
Proof.
  apply (simulate_day_summary_sorted example_tracker example_oracle_1
           example_summary example_after example_oracle_2).
  vm_compute. reflexivity.
Defined.

Lemma pre_visit_covid_iff_infected_before_witness :
  (exists r,
      example_visit_summary = [] ++ [r]
      /\ PersonDay.person r = example_person
      /\ (PersonDay.pre_visit_covid r = true
          <-> PersonSet.contains (PeopleTracker.infected_population example_tracker)
                example_person = true))
  /\ Forall
       (λ r,
          PersonDay.pre_visit_covid r = true
          <-> PersonSet.contains (PeopleTracker.infected_population example_tracker)
                (PersonDay.person r) = true)
       example_summary.
Proof.
  split.
  - apply (proj1 pre_visit_covid_iff_infected_before
             0 (LocationProfile.mk 0 0 Location.LIVING_ROOM) 1 example_person
             (PeopleTracker.infected_population example_tracker) []
             example_oracle example_visit_infected example_visit_summary
             example_visit_oracle).
    vm_compute. reflexivity.
  - apply List.Forall_forall.
    apply (proj2 pre_visit_covid_iff_infected_before
             example_tracker example_oracle_1 example_summary example_after
             example_oracle_2).
    + apply NoDup_ListNoDup. compute_done.
    + vm_compute. reflexivity.
Defined.

(** ** Further properties of the infection probability model *)

Section ProbabilityOrder.
Import InfectionProbabilitiesMapper.

Lemma count_0_10_cases (c : Z) :
  0 <= c ->
  c = 0 \/ Z.min 10 c = 1 /\ c <> 0 \/ Z.min 10 c = 2 /\ c <> 0
  \/ Z.min 10 c = 3 /\ c <> 0 \/ Z.min 10 c = 4 /\ c <> 0
  \/ Z.min 10 c = 5 /\ c <> 0 \/ Z.min 10 c = 6 /\ c <> 0
  \/ Z.min 10 c = 7 /\ c <> 0 \/ Z.min 10 c = 8 /\ c <> 0
  \/ Z.min 10 c = 9 /\ c <> 0 \/ Z.min 10 c = 10 /\ c <> 0.
Proof. lia. Qed.

(** The call depends on the count only through [count == 0] and
    [min(10, count)]. *)
Lemma get_infection_probability_min loc count m d k :
  count <> 0 -> Z.min 10 count = k -> k <> 0 ->
  get_infection_probability loc count m d = get_infection_probability loc k m d.
Proof.
  intros Hc Hmin Hk. unfold get_infection_probability.
  replace (count =? 0) with false by (symmetry; apply Z.eqb_neq; exact Hc).
  replace (k =? 0) with false by (symmetry; apply Z.eqb_neq; exact Hk).
  replace (Z.min 10 k) with k by lia. rewrite Hmin. reflexivity.
Qed.

(** Reduces a goal about calls at a count [c >= 0] to the eleven counts
    0..10. *)
Ltac by_count c Hc :=
  let H := fresh "H" in
  let Hmin := fresh "Hmin" in
  let Hnz := fresh "Hnz" in
  destruct (count_0_10_cases c Hc) as [H | H];
  [ subst c
  | repeat (destruct H as [[Hmin Hnz] | H];
            [ rewrite !(get_infection_probability_min _ c _ _ _ Hnz Hmin)
                by discriminate
            | ]);
    try (destruct H as [Hmin Hnz];
         rewrite !(get_infection_probability_min _ c _ _ _ Hnz Hmin)
           by discriminate) ].

(** Evaluates the two calls of the goal and compares their values. *)
Ltac compare_calls :=
  match goal with
  | |- exists p q, ?cp = Ok p /\ ?cq = Ok q /\ _ =>
      let vp := eval vm_compute in cp in
      let vq := eval vm_compute in cq in
      match constr:((vp, vq)) with
      | (Ok ?p, Ok ?q) => exists p, q; repeat split; vm_compute; reflexivity
      end
  end.

(** X1: ten infected co-occupants saturate the model: every count of 10
    or more gives the result of count 10. *)
Theorem get_infection_probability_capped :
  forall (loc : LocationProfile.t) (infected_count : Z)
         (wearing_mask social_distancing : bool),
    10 <= infected_count ->
    get_infection_probability loc infected_count wearing_mask social_distancing
    = get_infection_probability loc 10 wearing_mask social_distancing.
Proof.
  intros loc n m d Hn. apply get_infection_probability_min; lia.
Qed.

Lemma get_infection_probability_capped_witness :
  get_infection_probability (LocationProfile.mk 0 0 Location.CLASSROOM) 1500 true false
  = get_infection_probability (LocationProfile.mk 0 0 Location.CLASSROOM) 10 true false.
Proof.
  apply (get_infection_probability_capped
           (LocationProfile.mk 0 0 Location.CLASSROOM) 1500 true false).
  lia.
Defined.

(** X2: protection never raises the probability: switching on the mask
    flag, the distancing flag or both gives a result that is at most the
    result without them, at the same location and count. *)
Theorem protection_lowers_probability :
  forall (loc : LocationProfile.t) (infected_count : Z)
         (mask distancing mask' distancing' : bool),
    0 <= infected_count ->
    (mask = true -> mask' = true) ->
    (distancing = true -> distancing' = true) ->
    exists p' p,
      get_infection_probability loc infected_count mask' distancing' = Ok p'
      /\ get_infection_probability loc infected_count mask distancing = Ok p
      /\ Py.le p' p = true.
Proof.
  intros [a i l] n m d m' d' Hn Hm Hd.
  by_count n Hn;
    destruct l, m, d, m', d';
    try (specialize (Hm eq_refl); discriminate Hm);
    try (specialize (Hd eq_refl); discriminate Hd);
    compare_calls.
Qed.

Lemma protection_lowers_probability_witness :
  exists p' p,
    get_infection_probability (LocationProfile.mk 0 0 Location.INDOOR_PARTY) 4 true true
    = Ok p'
    /\ get_infection_probability (LocationProfile.mk 0 0 Location.INDOOR_PARTY) 4 false false
       = Ok p
    /\ Py.le p' p = true.
Proof.
  apply (protection_lowers_probability
           (LocationProfile.mk 0 0 Location.INDOOR_PARTY) 4 false false true true).
  - lia.
  - discriminate.
  - discriminate.
Defined.

(** X3: the categories are ordered by risk: for the same count and flags
    the result grows along OUTDOOR_HIKE, CLASSROOM, CONFERENCE_ROOM,
    INDOOR_PARTY, RESTAURANT_TABLE, LIVING_ROOM, that is, against the
    enum values. *)
Theorem riskier_location_higher_probability :
  forall (loc loc' : LocationProfile.t) (infected_count : Z)
         (wearing_mask social_distancing : bool),
    0 <= infected_count ->
    Location.value (LocationProfile.location loc)
    <= Location.value (LocationProfile.location loc') ->
    exists p' p,
      get_infection_probability loc' infected_count wearing_mask social_distancing
      = Ok p'
      /\ get_infection_probability loc infected_count wearing_mask social_distancing
         = Ok p
      /\ Py.le p' p = true.
Proof.
  intros [a i l] [a' i' l'] n m d Hn Hl.
  by_count n Hn;
    destruct l, l'; cbn in Hl; try lia; destruct m, d; compare_calls.
Qed.

Lemma riskier_location_higher_probability_witness :
  exists p' p,
    get_infection_probability (LocationProfile.mk 1 0 Location.CLASSROOM) 3 true false
    = Ok p'
    /\ get_infection_probability (LocationProfile.mk 0 0 Location.LIVING_ROOM) 3 true false
       = Ok p
    /\ Py.le p' p = true.
Proof.
  apply (riskier_location_higher_probability
           (LocationProfile.mk 0 0 Location.LIVING_ROOM)
           (LocationProfile.mk 1 0 Location.CLASSROOM) 3 true false).
  - lia.
  - cbn. lia.
Defined.

(** X4: away from OUTDOOR_HIKE and with at least one infected co-occupant
    the result is a float that is strictly positive and at most 0.22875,
    the value for a living room without mask or distancing and ten
    infected. *)
Theorem get_infection_probability_range :
  forall (loc : LocationProfile.t) (infected_count : Z)
         (wearing_mask social_distancing : bool),
    LocationProfile.location loc <> Location.OUTDOOR_HIKE ->
    0 < infected_count ->
    exists p : float,
      get_infection_probability loc infected_count wearing_mask social_distancing
      = Ok (PyFloat p)
      /\ (0 <? p)%float = true
      /\ (p <=? 0.22875)%float = true
      /\ get_infection_probability (LocationProfile.mk 0 0 Location.LIVING_ROOM)
           10 false false = Ok (PyFloat 0.22875).
Proof.
  intros [a i l] n m d Hl Hn. cbn in Hl.
  assert (H0 : 0 <= n) by lia.
  by_count n H0; try lia;
    destruct l; try congruence; destruct m, d;
    match goal with
    | |- exists p, ?c = _ /\ _ =>
        let v := eval vm_compute in c in
        match v with
        | Ok (PyFloat ?p) => exists p; repeat split; vm_compute; reflexivity
        end
    end.
Qed.

Lemma get_infection_probability_range_witness :
  exists p : float,
    get_infection_probability (LocationProfile.mk 0 0 Location.RESTAURANT_TABLE)
      2 false true = Ok (PyFloat p)
    /\ (0 <? p)%float = true
    /\ (p <=? 0.22875)%float = true
    /\ get_infection_probability (LocationProfile.mk 0 0 Location.LIVING_ROOM)
         10 false false = Ok (PyFloat 0.22875).
Proof.
  apply (get_infection_probability_range
           (LocationProfile.mk 0 0 Location.RESTAURANT_TABLE) 2 false true).
  - discriminate.
  - lia.
Defined.

End ProbabilityOrder.

(** ** What a random draw looks like *)

Section RandomDraws.

(** A float that is not below zero: anything but a negative number or
    minus infinity. *)
Let sf_nonneg (x : spec_float) : Prop :=
  match x with
  | S754_infinity true | S754_finite true _ _ => False
  | _ => True
  end.

Lemma binary_round_aux_nonneg mx ex lx :
  sf_nonneg (binary_round_aux prec emax false mx ex lx).
Proof.
  unfold binary_round_aux.
  destruct (shr_fexp prec emax mx ex lx) as [mrs e].
  destruct (shr_fexp prec emax _ e loc_Exact) as [mrs' e'].
  destruct (shr_m mrs'); cbn; [exact I | | exact I].
  destruct (e' <=? emax - prec); exact I.
Qed.

Lemma of_uint63_nonneg (n : PrimInt63.int) : sf_nonneg (Prim2SF (of_uint63 n)).
Proof.
  rewrite of_uint63_spec. pose proof (Uint63.to_Z_bounded n) as Hn.
  unfold binary_normalize. destruct (Uint63.to_Z n) as [| p | p]; [exact I | | lia].
  unfold binary_round. destruct (shl_align _ _ _) as [mz ez].
  apply binary_round_aux_nonneg.
Qed.

Lemma div_nonneg (x y : float) my ey :
  sf_nonneg (Prim2SF x) -> Prim2SF y = S754_finite false my ey ->
  sf_nonneg (Prim2SF (x / y)).
Proof.
  intros Hx Hy. rewrite div_spec, Hy. unfold SF64div, SFdiv.
  destruct (Prim2SF x) as [s | [ | ] | | [ | ] m e]; cbn in *;
    try exact I; try contradiction.
  destruct (SFdiv_core_binary prec emax (Z.pos m) e (Z.pos my) ey) as [[mz ez] lz].
  apply binary_round_aux_nonneg.
Qed.

Lemma float_lt_int_nonneg (r : float) :
  sf_nonneg (Prim2SF r) -> Py.float_lt_int r 0 = false.
Proof.
  unfold Py.float_lt_int.
  destruct (Prim2SF r) as [s | [ | ] | | [ | ] m e]; cbn;
    try reflexivity; try contradiction.
  intros _. destruct (0 <=? e) eqn:He.
  - apply Z.ltb_ge. apply Z.shiftl_nonneg. lia.
  - rewrite Z.shiftl_0_l. reflexivity.
Qed.

Lemma random_nonneg (g : RandomState) r g' :
  random.random g = Ok (r, g') -> sf_nonneg (Prim2SF r).
Proof.
  unfold random.random. intros H.
  apply bind_Ok in H as (n & g1 & _ & H). apply ret_Ok in H.
  injection H as -> _.
  eapply div_nonneg; [apply of_uint63_nonneg | vm_compute; reflexivity].
Qed.

(** [random.random()] never returns a number below zero: compared with
    the integer 0 it is never smaller. *)
Lemma random_not_below_zero (g : RandomState) r g' :
  random.random g = Ok (r, g') -> Py.float_lt_int r 0 = false.
Proof.
  intros H. apply float_lt_int_nonneg. eapply random_nonneg. exact H.
Qed.

(** Nor is it ever smaller than a rate that is zero or negative. *)
Lemma random_not_below_rate (g : RandomState) r g' (rate : float) :
  random.random g = Ok (r, g') ->
  (rate <=? 0)%float = true -> (r <? rate)%float = false.
Proof.
  intros H Hrate. apply random_nonneg in H. clear g g'.
  rewrite ltb_spec. rewrite leb_spec in Hrate.
  change (Prim2SF 0) with (S754_zero false) in Hrate.
  revert H Hrate.
  generalize (Prim2SF r) (Prim2SF rate). clear r rate.
  intros x y Hx Hy.
  destruct x as [s | [ | ] | | [ | ] m e];
    destruct y as [s' | [ | ] | | [ | ] m' e'];
    cbn in *; try reflexivity; try contradiction; try discriminate.
Qed.

End RandomDraws.

(** ** The records of a day *)

Section DayRecords.
Import PeopleTracker.

Implicit Types (infected : gmap Z PersonProfile.t) (person : PersonProfile.t).

Lemma contains_add_iff infected x person :
  PersonSet.contains (PersonSet.add infected x) person = true
  <-> PersonSet.contains infected person = true
      \/ PersonProfile.id person = PersonProfile.id x.
Proof.
  split; [apply contains_add_inv | ].
  intros [H | H].
  - eapply contains_weaken; [apply add_subseteq | exact H].
  - rewrite (contains_same_id _ person x H). apply contains_add.
Qed.

Lemma outdoor_hike_probability loc count m d :
  LocationProfile.location loc = Location.OUTDOOR_HIKE ->
  InfectionProbabilitiesMapper.get_infection_probability loc count m d
  = Ok (PyInt 0).
Proof.
  intros H. unfold InfectionProbabilitiesMapper.get_infection_probability.
  rewrite H. cbn. rewrite orb_true_r. reflexivity.
Qed.

Lemma update_person_record day loc count person infected day_summary g
      infected' day_summary' g' :
  update_person day loc count person (infected, day_summary) g
  = Ok ((infected', day_summary'), g') ->
  exists rec,
    day_summary' = day_summary ++ [rec]
    /\ PersonDay.person rec = person
    /\ PersonDay.pre_visit_covid rec = PersonSet.contains infected person
    /\ infected' = (if PersonDay.post_visit_covid rec
                    then PersonSet.add infected person else infected)
    /\ visit_record_ok day loc count rec.
Proof.
  unfold update_person. intros H.
  apply bind_Ok in H as (wm & g1 & _ & H).
  apply bind_Ok in H as (sd & g2 & _ & H).
  apply bind_Ok in H as ([pre post] & g3 & Hout & H).
  apply ret_Ok in H. injection H as -> -> ->.
  eexists. split; [reflexivity | ]. split; [reflexivity | ].
  unfold visit_record_ok. cbn.
  destruct (PersonSet.contains infected person) eqn:Hc.
  - rewrite andb_false_r in Hout. apply ret_Ok in Hout.
    injection Hout as -> -> ->. repeat split; auto; discriminate.
  - destruct (count =? 0) eqn:Hcount; cbn [andb negb] in Hout.
    + apply ret_Ok in Hout. injection Hout as -> -> ->.
      repeat split; auto; discriminate.
    + apply bind_Ok in Hout as (p & g4 & Hp & Hout).
      apply bind_Ok in Hout as (r & g5 & Hr & Hout).
      apply ret_Ok in Hout. injection Hout as -> -> ->.
      apply lift_Ok in Hp as [Hp _]. cbn in Hp.
      split; [reflexivity | ]. split; [reflexivity | ].
      split; [reflexivity | ]. split; [reflexivity | ].
      split; [discriminate | ].
      intros _ Hpost. split; [apply Z.eqb_neq; exact Hcount | ].
      intros Hhike.
      rewrite (outdoor_hike_probability _ _ _ _ Hhike) in Hp.
      injection Hp as <-. cbn in Hpost.
      rewrite (random_not_below_zero _ _ _ Hr) in Hpost. discriminate.
Qed.

Lemma reported_infected_app records records' p :
  reported_infected (records ++ records') p
  <-> reported_infected records p \/ reported_infected records' p.
Proof.
  unfold reported_infected. split.
  - intros (r & Hr & H). apply in_app_iff in Hr as [Hr | Hr]; [left | right]; eauto.
  - intros [(r & Hr & H) | (r & Hr & H)]; exists r; rewrite in_app_iff; auto.
Qed.

Lemma not_in_ids (l : list PersonDay.t) (people people' : list PersonProfile.t)
      (p : PersonProfile.t) :
  map PersonDay.person l = people ->
  List.NoDup (map PersonProfile.id (people ++ people')) ->
  In p people' ->
  ~ reported_infected l p.
Proof.
  intros Hl Hnd Hp (r & Hr & Hid & _).
  rewrite map_app in Hnd.
  assert (H1 : In (PersonProfile.id p) (map PersonProfile.id people)).
  { rewrite <- Hid, <- Hl. apply in_map. apply in_map. exact Hr. }
  assert (H2 : In (PersonProfile.id p) (map PersonProfile.id people'))
    by (apply in_map; exact Hp).
  revert Hnd H1 H2. generalize (map PersonProfile.id people).
  intros l1. induction l1 as [| a l1 IH]; cbn; intros Hnd H1 H2; [destruct H1 | ].
  apply List.NoDup_cons_iff in Hnd as [Ha Hnd].
  destruct H1 as [-> | H1]; [ | eauto].
  apply Ha. apply in_or_app. now right.
Qed.

Lemma update_location_records day loc people infected day_summary g
      infected' day_summary' g' :
  update_location day (loc, people) (infected, day_summary) g
  = Ok ((infected', day_summary'), g') ->
  exists new,
    day_summary' = day_summary ++ new
    /\ map PersonDay.person new = people
    /\ Forall (visit_record_ok day loc (count_infected infected people)) new
    /\ (forall p,
           PersonSet.contains infected' p = true
           <-> PersonSet.contains infected p = true \/ reported_infected new p)
    /\ (List.NoDup (map PersonProfile.id people) ->
        Forall (λ r, PersonDay.pre_visit_covid r
                     = PersonSet.contains infected (PersonDay.person r)) new).
Proof.
  unfold update_location. cbn [fst].
  set (count := count_infected infected people).
  intros Hrun.
  refine (for_each_ind
            (λ inner st,
               exists new,
                 st.2 = day_summary ++ new
                 /\ map PersonDay.person new = inner
                 /\ Forall (visit_record_ok day loc count) new
                 /\ (forall p,
                        PersonSet.contains st.1 p = true
                        <-> PersonSet.contains infected p = true
                            \/ reported_infected new p)
                 /\ (List.NoDup (map PersonProfile.id people) ->
                     Forall (λ r, PersonDay.pre_visit_covid r
                                  = PersonSet.contains infected (PersonDay.person r))
                       new))
            _ _ _ (infected, day_summary) _ (infected', day_summary') _ _ Hrun).
  - intros inner x todo [inf_i sum_i] g1 [inf_1 sum_1] g2 Hpeople
           (new & Hsum & Hmap & Hok & Hinf & Hpre) Hx.
    cbn in Hsum, Hinf.
    apply update_person_record in Hx
        as (rec & Hsum1 & Hperson & Hrecpre & Hinf1 & Hrecok).
    exists (new ++ [rec]). cbn [fst snd].
    split; [rewrite Hsum1, Hsum; now rewrite app_assoc | ].
    split; [rewrite map_app, Hmap; cbn; now rewrite Hperson | ].
    split; [apply Forall_app; split; [exact Hok | now constructor] | ].
    assert (Hiff : forall p,
               PersonSet.contains inf_1 p = true
               <-> PersonSet.contains infected p = true
                   \/ reported_infected (new ++ [rec]) p).
    { intros p. rewrite reported_infected_app, Hinf1.
      destruct (PersonDay.post_visit_covid rec) eqn:Hpost.
      - rewrite contains_add_iff, Hinf. split.
        + intros [[H | H] | H]; [tauto | tauto | ].
          right. right. exists rec. rewrite Hperson. cbn. auto.
        + intros [H | [H | (r & [<- | []] & Hid & _)]]; [tauto | tauto | ].
          right. rewrite <- Hid, Hperson. reflexivity.
      - rewrite Hinf. split; [tauto | ].
        intros [H | [H | (r & [<- | []] & _ & Hp)]]; [tauto | tauto | congruence]. }
    split; [exact Hiff | ].
    intros Hnd. apply Forall_app. split; [exact (Hpre Hnd) | ].
    constructor; [ | constructor].
    rewrite Hrecpre, Hperson.
    destruct (PersonSet.contains inf_i x) eqn:Hc.
    + apply Hinf in Hc as [Hc | Hc]; [now rewrite Hc | ].
      exfalso. rewrite Hpeople in Hnd.
      eapply (not_in_ids new inner (x :: todo) x); eauto. now left.
    + destruct (PersonSet.contains infected x) eqn:Hc0; [ | reflexivity].
      assert (PersonSet.contains inf_i x = true) by (apply Hinf; now left).
      congruence.
  - exists []. cbn. rewrite app_nil_r. repeat split; auto.
    intros [H | (r & [] & _)]. exact H.
Qed.

Lemma count_infected_none infected people :
  (forall q, In q people -> PersonSet.contains infected q = false) ->
  count_infected infected people = 0.
Proof.
  unfold count_infected. generalize 0.
  induction people as [| p people IH]; intros acc H; cbn; [reflexivity | ].
  rewrite (H p) by (now left). apply IH. intros q Hq. apply H. now right.
Qed.

Lemma count_infected_some infected people :
  count_infected infected people <> 0 ->
  exists q, In q people /\ PersonSet.contains infected q = true.
Proof.
  intros Hcount.
  destruct (existsb (PersonSet.contains infected) people) eqn:He.
  - apply existsb_exists in He. exact He.
  - exfalso. apply Hcount. apply count_infected_none. intros q Hq.
    destruct (PersonSet.contains infected q) eqn:Hc; [ | reflexivity].
    assert (existsb (PersonSet.contains infected) people = true)
      by (apply existsb_exists; eauto).
    congruence.
Qed.

End DayRecords.

Section DaySummary.
Import PeopleTracker.

Implicit Types (infected : gmap Z PersonProfile.t) (person : PersonProfile.t).

Lemma reported_infected_perm records records' p :
  Permutation records records' ->
  reported_infected records p -> reported_infected records' p.
Proof.
  intros Hperm (r & Hr & H). exists r. split; [ | exact H].
  eapply Permutation_in; eauto.
Qed.

Lemma has_contact_weaken records records' r :
  (forall x, In x records -> In x records') ->
  has_contact records r -> has_contact records' r.
Proof.
  intros Hsub H Hpre Hpost. destruct (H Hpre Hpost) as (r' & Hr' & Hfacts).
  exists r'. split; [apply Hsub; exact Hr' | exact Hfacts].
Qed.

Lemma update_infection_records self groups g summary self' g' :
  update_infection self groups g = Ok ((summary, self'), g') ->
  Forall (day_record_ok (simulated_day self) groups) summary
  /\ (forall p,
         PersonSet.contains (infected_population self') p = true
         <-> PersonSet.contains (infected_population self) p = true
             \/ reported_infected summary p)
  /\ (List.NoDup (map PersonProfile.id (occupants groups)) ->
      Forall (has_contact summary) summary).
Proof.
  intros H.
  apply update_infection_Ok in H as (infected' & day_summary & Hloop & -> & ->).
  cbn [infected_population].
  set (infected0 := infected_population self) in *.
  set (day := simulated_day self) in *.
  assert (Hinv :
    map PersonDay.person day_summary = occupants groups
    /\ Forall (day_record_ok day groups) day_summary
    /\ (forall p,
           PersonSet.contains infected' p = true
           <-> PersonSet.contains infected0 p = true
               \/ reported_infected day_summary p)
    /\ (List.NoDup (map PersonProfile.id (occupants groups)) ->
        Forall (λ r, PersonDay.pre_visit_covid r
                     = PersonSet.contains infected0 (PersonDay.person r))
          day_summary
        /\ Forall (has_contact day_summary) day_summary)).
  { refine (for_each_ind
              (λ done st,
                 map PersonDay.person st.2 = occupants done
                 /\ Forall (day_record_ok day groups) st.2
                 /\ (forall p,
                        PersonSet.contains st.1 p = true
                        <-> PersonSet.contains infected0 p = true
                            \/ reported_infected st.2 p)
                 /\ (List.NoDup (map PersonProfile.id (occupants groups)) ->
                     Forall (λ r, PersonDay.pre_visit_covid r
                                  = PersonSet.contains infected0 (PersonDay.person r))
                       st.2
                     /\ Forall (has_contact st.2) st.2))
              _ _ _ (infected0, []) _ (infected', day_summary) _ _ Hloop).
    - intros done [loc people] todo [inf sum] g1 [inf' sum'] g2 Hgroups
             (Hmap & Hok & Hinf & Hnd) Hx.
      cbn [fst snd] in *.
      apply update_location_records in Hx
          as (new & -> & Hnew & Hnewok & Hinf' & Hnewpre).
      assert (Hin : forall r, In r new -> In (PersonDay.person r) people).
      { intros r Hr. rewrite <- Hnew. apply in_map. exact Hr. }
      split; [rewrite map_app, Hmap, Hnew; symmetry; apply occupants_app | ].
      split.
      { apply Forall_app. split; [exact Hok | ].
        apply List.Forall_forall. intros r Hr.
        pose proof (proj1 (List.Forall_forall _ _) Hnewok r Hr)
          as (Hday & Hplace & Hstay & Hexp).
        split; [exact Hday | ]. split.
        - exists people. rewrite Hplace, Hgroups. split; [ | auto].
          apply in_or_app. right. now left.
        - split; [exact Hstay | ]. intros Hpre Hpost. rewrite Hplace.
          apply (Hexp Hpre Hpost). }
      split.
      { intros p. rewrite Hinf', Hinf, reported_infected_app. tauto. }
      intros Hall.
      destruct (Hnd Hall) as [Hpre Hcontact].
      assert (Hnd1 : List.NoDup (map PersonProfile.id (occupants done ++ people))).
      { rewrite Hgroups, occupants_split, map_app in Hall.
        apply NoDup_app_remove_r in Hall. exact Hall. }
      assert (Hnd2 : List.NoDup (map PersonProfile.id people)).
      { rewrite map_app in Hnd1. apply NoDup_app_remove_l in Hnd1. exact Hnd1. }
      assert (Hsame : forall q, In q people ->
                PersonSet.contains inf q = PersonSet.contains infected0 q).
      { intros q Hq.
        destruct (PersonSet.contains inf q) eqn:Hc.
        - apply Hinf in Hc as [Hc | Hc]; [now rewrite Hc | ].
          exfalso. eapply (not_in_ids sum (occupants done) people q); eauto.
        - destruct (PersonSet.contains infected0 q) eqn:Hc0; [ | reflexivity].
          assert (PersonSet.contains inf q = true) by (apply Hinf; now left).
          congruence. }
      pose proof (Hnewpre Hnd2) as Hnewpre'.
      split.
      { apply Forall_app. split; [exact Hpre | ].
        apply List.Forall_forall. intros r Hr.
        rewrite (proj1 (List.Forall_forall _ _) Hnewpre' r Hr).
        apply Hsame. apply Hin. exact Hr. }
      apply Forall_app. split.
      { eapply Forall_impl; [exact Hcontact | ].
        intros r. apply has_contact_weaken. intros x Hx.
        apply in_or_app. now left. }
      apply List.Forall_forall. intros r Hr Hrpre Hrpost.
      pose proof (proj1 (List.Forall_forall _ _) Hnewok r Hr)
        as (_ & Hplace & _ & Hexp).
      destruct (Hexp Hrpre Hrpost) as [Hcount _].
      apply count_infected_some in Hcount as (q & Hq & Hqc).
      assert (Hq' : In q (map PersonDay.person new)) by (rewrite Hnew; exact Hq).
      apply in_map_iff in Hq' as (r' & Hr'q & Hr').
      exists r'. split; [apply in_or_app; now right | ]. split.
      + pose proof (proj1 (List.Forall_forall _ _) Hnewok r' Hr')
          as (_ & Hplace' & _). congruence.
      + rewrite (proj1 (List.Forall_forall _ _) Hnewpre' r' Hr'), Hr'q. exact Hqc.
    - cbn. repeat split; auto.
      intros [H | (r & [] & _)]. exact H. }
  destruct Hinv as (_ & Hok & Hinf & Hnd).
  pose proof (sort_perm sort_key day_summary) as Hperm.
  split; [eapply Permutation_Forall; [symmetry; exact Hperm | exact Hok] | ].
  split.
  - intros p. rewrite Hinf. split; (intros [H | H]; [now left | right]).
    + eapply reported_infected_perm; [symmetry; exact Hperm | exact H].
    + eapply reported_infected_perm; [exact Hperm | exact H].
  - intros Hall. destruct (Hnd Hall) as [_ Hcontact].
    eapply Permutation_Forall; [symmetry; exact Hperm | ].
    eapply Forall_impl; [exact Hcontact | ].
    intros r. apply has_contact_weaken. intros x Hx.
    eapply Permutation_in; [symmetry; exact Hperm | exact Hx].
Qed.

End DaySummary.

(** ** Assigning people to locations *)

Section Assignment.
Import PeopleTracker.

Lemma choice_In {A} (seq : list A) (g : RandomState) x g' :
  random.choice seq g = Ok (x, g') -> In x seq.
Proof.
  unfold random.choice. destruct seq as [| a seq']; [discriminate | ].
  intros H. apply bind_Ok in H as (i & g1 & _ & H).
  destruct ((a :: seq') !! Z.to_nat i) as [y |] eqn:Hy; [ | discriminate].
  apply ret_Ok in H. injection H as -> ->.
  apply list_elem_of_In. eapply list_elem_of_lookup_2. exact Hy.
Qed.

Section Dictionaries.
Context {K V : Type} (eqb : K -> K -> bool).

(** Appending to a key's list keeps every group and only lengthens one. *)
Lemma setdefault_append_keeps (d : list (K * list V)) k x key xs :
  In (key, xs) d ->
  exists xs', In (key, xs') (Dict.setdefault_append eqb d k x)
              /\ forall y, In y xs -> In y xs'.
Proof.
  induction d as [| [k' ys] d IH]; intros Hin; [destruct Hin | ].
  cbn. destruct Hin as [[= -> ->] | Hin].
  - destruct (eqb key k).
    + exists (xs ++ [x]). split; [now left | ].
      intros y Hy. apply in_or_app. now left.
    + exists xs. split; [now left | auto].
  - destruct (eqb k' k).
    + exists xs. split; [now right | auto].
    + destruct (IH Hin) as (xs' & Hin' & Hsub). exists xs'. split; [now right | auto].
Qed.

(** The appended element lands in a group whose key equals the given one. *)
Lemma setdefault_append_member (d : list (K * list V)) k x :
  eqb k k = true ->
  exists key xs,
    In (key, xs) (Dict.setdefault_append eqb d k x)
    /\ eqb key k = true /\ In x xs.
Proof.
  intros Hrefl. induction d as [| [k' ys] d IH]; cbn.
  - exists k, [x]. repeat split; auto; now left.
  - destruct (eqb k' k) eqn:He.
    + exists k', (ys ++ [x]). split; [now left | ]. split; [exact He | ].
      apply in_or_app. right. now left.
    + destruct IH as (key & xs & Hin & Hk & Hx).
      exists key, xs. split; [now right | auto].
Qed.

(** Every group of the result is a group of the dictionary, possibly
    lengthened, or the new one-element group. *)
Lemma setdefault_append_inv (d : list (K * list V)) k x key xs :
  In (key, xs) (Dict.setdefault_append eqb d k x) ->
  (exists ys, In (key, ys) d /\ (xs = ys \/ xs = ys ++ [x]))
  \/ (key = k /\ xs = [x] /\ forall e, In e d -> eqb e.1 k = false).
Proof.
  induction d as [| [k' ys] d IH]; cbn; intros Hin.
  - destruct Hin as [[= <- <-] | []]. right. repeat split. intros e [].
  - destruct (eqb k' k) eqn:He.
    + destruct Hin as [[= <- <-] | Hin].
      * left. exists ys. split; [now left | now right].
      * left. exists xs. split; [now right | now left].
    + destruct Hin as [[= <- <-] | Hin].
      * left. exists ys. split; [now left | now left].
      * destruct (IH Hin) as [(zs & Hzs & Hxs) | (-> & -> & Hfresh)].
        -- left. exists zs. split; [now right | exact Hxs].
        -- right. repeat split. intros e [<- | He']; [exact He | auto].
Qed.

(** [d[k] = v] on a key the dictionary does not hold appends the entry. *)
Lemma setitem_fresh {W} (d : list (K * W)) k v :
  (forall e, In e d -> eqb e.1 k = false) ->
  Dict.setitem eqb d k v = d ++ [(k, v)].
Proof.
  induction d as [| [k' v'] d IH]; intros Hfresh; cbn; [reflexivity | ].
  pose proof (Hfresh (k', v') ltac:(now left)) as Hk. cbn in Hk. rewrite Hk.
  rewrite IH; [reflexivity | ]. intros e He. apply Hfresh. now right.
Qed.

End Dictionaries.

Lemma determine_locations_groups self g assignment groups g' :
  determine_locations self g = Ok ((assignment, groups), g') ->
  Forall (λ grp, In grp.1 (available_locations self) /\ grp.2 <> []) groups
  /\ List.NoDup (map (λ grp, LocationProfile.addr grp.1) groups).
Proof.
  unfold determine_locations. intros Hrun.
  refine (for_each_ind
            (λ _ st,
               Forall (λ grp, In grp.1 (available_locations self) /\ grp.2 <> [])
                 st.2
               /\ List.NoDup (map (λ grp, LocationProfile.addr grp.1) st.2))
            _ _ _ ([], []) _ (assignment, groups) _ _ Hrun).
  - intros done person todo [la gl] g1 [la' gl'] g2 _ [Hok Hnd] H. cbn in *.
    apply bind_Ok in H as (location & g3 & Hc & H).
    apply ret_Ok in H. injection H as -> -> ->.
    apply choice_In in Hc. split.
    + apply List.Forall_forall. intros [key xs] Hin.
      apply setdefault_append_inv in Hin
          as [(ys & Hys & Hxs) | (-> & -> & _)]; cbn.
      * pose proof (proj1 (List.Forall_forall _ _) Hok _ Hys) as [Hk Hne].
        cbn in Hk, Hne. split; [exact Hk | ].
        destruct Hxs as [-> | ->]; [exact Hne | ].
        intros Happ. apply app_eq_nil in Happ as [_ Hnil]. discriminate.
      * split; [exact Hc | discriminate].
    + clear Hok. induction gl as [| [k' ys] gl IH]; cbn.
      * repeat constructor. intros [].
      * cbn in Hnd. apply List.NoDup_cons_iff in Hnd as [Hk' Hnd].
        destruct (LocationProfile.same k' location) eqn:He; cbn.
        -- constructor; assumption.
        -- constructor; [ | apply IH; exact Hnd].
           intros Hin. apply in_map_iff in Hin as ([key xs] & Haddr & Hin).
           cbn in Haddr.
           apply setdefault_append_inv in Hin
               as [(zs & Hzs & _) | (-> & _)].
           ++ apply Hk'. rewrite <- Haddr.
              apply (in_map (λ grp, LocationProfile.addr grp.1) gl (key, zs) Hzs).
           ++ unfold LocationProfile.same in He. rewrite Haddr in He.
              rewrite Nat.eqb_refl in He. discriminate.
  - cbn. split; constructor.
Qed.

Lemma determine_locations_assignment self g assignment groups g' :
  List.NoDup (map PersonProfile.id (population self)) ->
  determine_locations self g = Ok ((assignment, groups), g') ->
  map fst assignment = population self
  /\ Forall (λ entry,
               In entry.2 (available_locations self)
               /\ exists key people,
                    In (key, people) groups
                    /\ LocationProfile.same key entry.2 = true
                    /\ In entry.1 people)
       assignment.
Proof.
  unfold determine_locations. intros Hnd Hrun.
  refine (for_each_ind
            (λ done st,
               map fst st.1 = done
               /\ Forall (λ entry,
                            In entry.2 (available_locations self)
                            /\ exists key people,
                                 In (key, people) st.2
                                 /\ LocationProfile.same key entry.2 = true
                                 /\ In entry.1 people)
                    st.1)
            _ _ _ ([], []) _ (assignment, groups) _ _ Hrun).
  - intros done person todo [la gl] g1 [la' gl'] g2 Hpop [Hkeys Hok] H. cbn in *.
    apply bind_Ok in H as (location & g3 & Hc & H).
    apply ret_Ok in H. injection H as -> -> ->.
    apply choice_In in Hc.
    assert (Hfresh : forall e, In e la -> PersonProfile.__eq__ e.1 person = false).
    { intros e He. unfold PersonProfile.__eq__. apply Z.eqb_neq. intros Hid.
      rewrite Hpop, map_app in Hnd. cbn in Hnd. apply NoDup_remove_2 in Hnd.
      apply Hnd. apply in_or_app. left. rewrite Hid, <- Hkeys.
      rewrite map_map. apply (in_map (λ x, PersonProfile.id x.1) la e He). }
    rewrite (setitem_fresh _ la person location Hfresh).
    split; [rewrite map_app, Hkeys; reflexivity | ].
    apply Forall_app. split.
    + eapply Forall_impl; [exact Hok | ].
      intros [p loc] (Hloc & key & people & Hin & Hsame & Hp). cbn in *.
      split; [exact Hloc | ].
      destruct (setdefault_append_keeps LocationProfile.same gl location person
                  key people Hin) as (people' & Hin' & Hsub).
      exists key, people'. auto.
    + constructor; [ | constructor]. cbn. split; [exact Hc | ].
      apply setdefault_append_member. unfold LocationProfile.same.
      apply Nat.eqb_refl.
  - cbn. split; [reflexivity | constructor].
Qed.

End Assignment.

(** ** What a simulated day does *)

Section SimulatedDay.
Import PeopleTracker.

Lemma determine_locations_keys self g assignment groups g' :
  determine_locations self g = Ok ((assignment, groups), g') ->
  forall loc people, In (loc, people) groups -> In loc (available_locations self).
Proof.
  intros H loc people Hin.
  apply determine_locations_groups in H as [Hok _].
  exact (proj1 (proj1 (List.Forall_forall _ _) Hok _ Hin)).
Qed.

Lemma simulate_day_records self g summary self' g' :
  simulate_day self g = Ok ((summary, self'), g') ->
  exists groups,
    (forall loc people, In (loc, people) groups -> In loc (available_locations self))
    /\ Permutation (occupants groups) (population self)
    /\ Forall (day_record_ok (simulated_day self) groups) summary
    /\ (forall p,
           PersonSet.contains (infected_population self') p = true
           <-> PersonSet.contains (infected_population self) p = true
               \/ reported_infected summary p)
    /\ (List.NoDup (map PersonProfile.id (population self)) ->
        Forall (has_contact summary) summary).
Proof.
  intros H.
  apply simulate_day_Ok in H as (assignment & groups & g1 & self1 & Hloc & Hupd & ->).
  exists groups.
  split; [exact (determine_locations_keys _ _ _ _ _ Hloc) | ].
  apply determine_locations_Ok in Hloc.
  split; [exact Hloc | ].
  apply update_infection_records in Hupd as (Hok & Hinf & Hcontact).
  split; [exact Hok | ]. split; [exact Hinf | ].
  intros Hnd. apply Hcontact.
  eapply Permutation_NoDup; [ | exact Hnd].
  apply Permutation_map. symmetry. exact Hloc.
Qed.

Lemma same_record (l : list PersonDay.t) (a b : PersonDay.t) :
  List.NoDup (map PersonProfile.id (map PersonDay.person l)) ->
  In a l -> In b l ->
  PersonProfile.id (PersonDay.person a) = PersonProfile.id (PersonDay.person b) ->
  a = b.
Proof.
  induction l as [| x l IH]; intros Hnd Ha Hb Hid; [destruct Ha | ].
  cbn in Hnd. apply List.NoDup_cons_iff in Hnd as [Hx Hnd].
  assert (Hmem : forall y, In y l ->
            In (PersonProfile.id (PersonDay.person y))
               (map PersonProfile.id (map PersonDay.person l))).
  { intros y Hy. apply in_map. apply in_map. exact Hy. }
  destruct Ha as [<- | Ha], Hb as [<- | Hb]; auto.
  - exfalso. apply Hx. rewrite Hid. auto.
  - exfalso. apply Hx. rewrite <- Hid. auto.
Qed.

End SimulatedDay.

(** X5: every record of the returned summary carries the day number the
    tracker had before the call, a person of the population and a place
    taken from the location pool. *)
Theorem simulate_day_records_stamped :
  forall (self : PeopleTracker.t) (g : RandomState) summary self' g',
    PeopleTracker.simulate_day self g = Ok ((summary, self'), g') ->
    Forall (λ r,
              PersonDay.day r = PeopleTracker.simulated_day self
              /\ In (PersonDay.person r) (PeopleTracker.population self)
              /\ In (PersonDay.place r) (PeopleTracker.available_locations self))
      summary.
Proof.
  intros self g summary self' g' H.
  apply simulate_day_records in H as (groups & Hkeys & Hperm & Hok & _).
  eapply Forall_impl; [exact Hok | ].
  intros r (Hday & (people & Hgrp & Hp) & _). split; [exact Hday | ]. split.
  - eapply Permutation_in; [exact Hperm | ].
    unfold occupants. apply in_concat. exists people. split; [ | exact Hp].
    apply (in_map snd groups _ Hgrp).
  - eapply Hkeys. exact Hgrp.
Qed.

Lemma simulate_day_records_stamped_witness :
  Forall (λ r,
            PersonDay.day r = PeopleTracker.simulated_day example_tracker
            /\ In (PersonDay.person r) (PeopleTracker.population example_tracker)
            /\ In (PersonDay.place r)
                 (PeopleTracker.available_locations example_tracker))
    example_summary.
Proof.
  apply (simulate_day_records_stamped example_tracker example_oracle_1
           example_summary example_after example_oracle_2).
  vm_compute. reflexivity.
Defined.

(** X6: nobody recovers during a day: a record with the pre-visit flag
    set has the post-visit flag set. *)
Theorem infected_stay_infected :
  forall (self : PeopleTracker.t) (g : RandomState) summary self' g',
    PeopleTracker.simulate_day self g = Ok ((summary, self'), g') ->
    Forall (λ r,
              PersonDay.pre_visit_covid r = true ->
              PersonDay.post_visit_covid r = true)
      summary.
Proof.
  intros self g summary self' g' H.
  apply simulate_day_records in H as (groups & _ & _ & Hok & _).
  eapply Forall_impl; [exact Hok | ].
  intros r (_ & _ & Hstay & _). exact Hstay.
Qed.

Lemma infected_stay_infected_witness :
  Forall (λ r,
            PersonDay.pre_visit_covid r = true ->
            PersonDay.post_visit_covid r = true)
    example_summary.
Proof.
  apply (infected_stay_infected example_tracker example_oracle_1
           example_summary example_after example_oracle_2).
  vm_compute. reflexivity.
Defined.

(** X7: nobody is infected on a hike: in a record whose place is an
    OUTDOOR_HIKE location the post-visit flag equals the pre-visit flag,
    however many infected people are there. *)
Theorem outdoor_hike_never_infects :
  forall (self : PeopleTracker.t) (g : RandomState) summary self' g',
    PeopleTracker.simulate_day self g = Ok ((summary, self'), g') ->
    Forall (λ r,
              LocationProfile.location (PersonDay.place r) = Location.OUTDOOR_HIKE ->
              PersonDay.post_visit_covid r = PersonDay.pre_visit_covid r)
      summary.
Proof.
  intros self g summary self' g' H.
  apply simulate_day_records in H as (groups & _ & _ & Hok & _).
  eapply Forall_impl; [exact Hok | ].
  intros r (_ & _ & Hstay & Hhike) Hplace.
  destruct (PersonDay.pre_visit_covid r) eqn:Hpre; [apply Hstay; reflexivity | ].
  destruct (PersonDay.post_visit_covid r) eqn:Hpost; [ | reflexivity].
  exfalso. exact (Hhike eq_refl eq_refl Hplace).
Qed.

Lemma outdoor_hike_never_infects_witness :
  Forall (λ r,
            LocationProfile.location (PersonDay.place r) = Location.OUTDOOR_HIKE ->
            PersonDay.post_visit_covid r = PersonDay.pre_visit_covid r)
    example_summary.
Proof.
  apply (outdoor_hike_never_infects example_tracker example_oracle_1
           example_summary example_after example_oracle_2).
  vm_compute. reflexivity.
Defined.

(** X8: the infected set after the call is the set before plus the people
    the summary reports infected: a person is a member afterwards exactly
    when they were a member before or some record for their id has the
    post-visit flag set. *)
Theorem infected_after_day :
  forall (self : PeopleTracker.t) (g : RandomState) summary self' g',
    PeopleTracker.simulate_day self g = Ok ((summary, self'), g') ->
    forall p,
      PersonSet.contains (PeopleTracker.infected_population self') p = true
      <-> PersonSet.contains (PeopleTracker.infected_population self) p = true
          \/ reported_infected summary p.
Proof.
  intros self g summary self' g' H.
  apply simulate_day_records in H as (groups & _ & _ & _ & Hinf & _).
  exact Hinf.
Qed.

Lemma infected_after_day_witness :
  PersonSet.contains (PeopleTracker.infected_population example_after)
    example_person = true
  <-> PersonSet.contains (PeopleTracker.infected_population example_tracker)
        example_person = true
      \/ reported_infected example_summary example_person.
Proof.
  apply (infected_after_day example_tracker example_oracle_1
           example_summary example_after example_oracle_2).
  vm_compute. reflexivity.
Defined.

(** X9: on a tracker with distinct person ids the post-visit flag of a
    record says exactly whether its person is in the infected set when the
    call returns. *)
Theorem post_visit_covid_iff_infected_after :
  forall (self : PeopleTracker.t) (g : RandomState) summary self' g',
    List.NoDup (map PersonProfile.id (PeopleTracker.population self)) ->
    PeopleTracker.simulate_day self g = Ok ((summary, self'), g') ->
    Forall (λ r,
              PersonDay.post_visit_covid r = true
              <-> PersonSet.contains (PeopleTracker.infected_population self')
                    (PersonDay.person r) = true)
      summary.
Proof.
  intros self g summary self' g' Hnd H.
  pose proof (simulate_day_persons _ _ _ _ _ H) as Hperm.
  pose proof H as Hrec.
  apply simulate_day_records in Hrec as (groups & _ & Hocc & Hok & Hinf & _).
  assert (Hpre : forall r, In r summary ->
            PersonDay.pre_visit_covid r
            = PersonSet.contains (PeopleTracker.infected_population self)
                (PersonDay.person r)).
  { apply simulate_day_Ok in H
        as (assignment & groups' & g1 & self1 & Hloc & Hupd & _).
    apply determine_locations_Ok in Hloc.
    eapply update_infection_invariant; [ | exact Hupd].
    eapply Permutation_NoDup; [ | exact Hnd].
    apply Permutation_map. symmetry. exact Hloc. }
  assert (Hnd' : List.NoDup (map PersonProfile.id (map PersonDay.person summary))).
  { eapply Permutation_NoDup; [ | exact Hnd].
    apply Permutation_map. symmetry. exact Hperm. }
  apply List.Forall_forall. intros r Hr.
  pose proof (proj1 (List.Forall_forall _ _) Hok r Hr) as (_ & _ & Hstay & _).
  split.
  - intros Hpost. apply Hinf. right. exists r. auto.
  - intros Hc. apply Hinf in Hc as [Hc | (r' & Hr' & Hid & Hpost)].
    + apply Hstay. rewrite (Hpre r Hr). exact Hc.
    + rewrite <- (same_record summary r' r Hnd' Hr' Hr Hid). exact Hpost.
Qed.

Lemma post_visit_covid_iff_infected_after_witness :
  Forall (λ r,
            PersonDay.post_visit_covid r = true
            <-> PersonSet.contains (PeopleTracker.infected_population example_after)
                  (PersonDay.person r) = true)
    example_summary.
Proof.
  apply (post_visit_covid_iff_infected_after example_tracker example_oracle_1
           example_summary example_after example_oracle_2).
  - apply NoDup_ListNoDup. compute_done.
  - vm_compute. reflexivity.
Defined.



(** X11: the infection does not start by itself: on a tracker with
    distinct person ids and an empty infected set, a day leaves the
    infected set empty and every record has both flags clear. *)
Theorem no_infected_no_infection :
  forall (self : PeopleTracker.t) (g : RandomState) summary self' g',
    List.NoDup (map PersonProfile.id (PeopleTracker.population self)) ->
    PeopleTracker.infected_population self = ∅ ->
    PeopleTracker.simulate_day self g = Ok ((summary, self'), g') ->
    PeopleTracker.infected_population self' = ∅
    /\ Forall (λ r,
                 PersonDay.pre_visit_covid r = false
                 /\ PersonDay.post_visit_covid r = false)
         summary.
Proof.
  intros self g summary self' g' Hnd Hempty H.
  pose proof H as Hrec.
  apply simulate_day_records in Hrec as (groups & _ & _ & _ & Hinf & Hcontact).
  specialize (Hcontact Hnd).
  assert (Hpre : forall r, In r summary -> PersonDay.pre_visit_covid r = false).
  { intros r Hr.
    apply simulate_day_Ok in H
        as (assignment & groups' & g1 & self1 & Hloc & Hupd & _).
    apply determine_locations_Ok in Hloc.
    rewrite (update_infection_invariant self groups' g1 summary self1 g');
      [ | | exact Hupd | exact Hr].
    - rewrite Hempty. reflexivity.
    - eapply Permutation_NoDup; [ | exact Hnd].
      apply Permutation_map. symmetry. exact Hloc. }
  assert (Hpost : forall r, In r summary -> PersonDay.post_visit_covid r = false).
  { intros r Hr.
    destruct (PersonDay.post_visit_covid r) eqn:Hp; [ | reflexivity].
    destruct (proj1 (List.Forall_forall _ _) Hcontact r Hr (Hpre r Hr) Hp)
      as (r' & Hr' & _ & Hpre').
    rewrite (Hpre r' Hr') in Hpre'. discriminate. }
  split.
  - apply map_empty. intros i.
    destruct (PeopleTracker.infected_population self' !! i) as [q |] eqn:Hq;
      [ | reflexivity].
    exfalso.
    assert (Hc : PersonSet.contains (PeopleTracker.infected_population self')
                   (PersonProfile.mk i 0 0) = true).
    { apply contains_true. cbn. rewrite Hq. eauto. }
    apply Hinf in Hc as [Hc | (r & Hr & _ & Hp)].
    + rewrite Hempty in Hc. discriminate.
    + rewrite (Hpost r Hr) in Hp. discriminate.
  - apply List.Forall_forall. intros r Hr. split; [apply Hpre | apply Hpost]; exact Hr.
Qed.

Lemma no_infected_no_infection_witness :
  PeopleTracker.infected_population healthy_after = ∅
  /\ Forall (λ r,
               PersonDay.pre_visit_covid r = false
               /\ PersonDay.post_visit_covid r = false)
       healthy_summary.
Proof.
  apply (no_infected_no_infection healthy_tracker example_oracle_1
           healthy_summary healthy_after healthy_oracle).
  - apply NoDup_ListNoDup. compute_done.
  - reflexivity.
  - vm_compute. reflexivity.
Defined.

(** X12: [determine_locations()] partitions the population: everybody is
    in exactly one group, no group is empty, every group key is a location
    of the pool, and no two groups have the same location object as key. *)
Theorem determine_locations_partition :
  forall (self : PeopleTracker.t) (g : RandomState) assignment groups g',
    PeopleTracker.determine_locations self g = Ok ((assignment, groups), g') ->
    Permutation (occupants groups) (PeopleTracker.population self)
    /\ Forall (λ grp,
                 In grp.1 (PeopleTracker.available_locations self) /\ grp.2 <> [])
         groups
    /\ List.NoDup (map (λ grp, LocationProfile.addr grp.1) groups).
Proof.
  intros self g assignment groups g' H.
  split; [exact (determine_locations_Ok _ _ _ _ _ H) | ].
  exact (determine_locations_groups _ _ _ _ _ H).
Qed.

Lemma determine_locations_partition_witness :
  Permutation (occupants example_groups) (PeopleTracker.population example_tracker)
  /\ Forall (λ grp,
               In grp.1 (PeopleTracker.available_locations example_tracker)
               /\ grp.2 <> [])
       example_groups
  /\ List.NoDup (map (λ grp, LocationProfile.addr grp.1) example_groups).
Proof.
  apply (determine_locations_partition example_tracker example_oracle_1
           example_assignment example_groups example_oracle_groups).
  vm_compute. reflexivity.
Defined.

(** X13: the two dictionaries returned by [determine_locations()] agree:
    with distinct person ids, [location_assignment] has one entry per
    person, in population order, and the location it gives for a person
    is from the pool and is the key of the group that holds the person. *)
Theorem determine_locations_consistent :
  forall (self : PeopleTracker.t) (g : RandomState) assignment groups g',
    List.NoDup (map PersonProfile.id (PeopleTracker.population self)) ->
    PeopleTracker.determine_locations self g = Ok ((assignment, groups), g') ->
    map fst assignment = PeopleTracker.population self
    /\ Forall (λ entry,
                 In entry.2 (PeopleTracker.available_locations self)
                 /\ exists key people,
                      In (key, people) groups
                      /\ LocationProfile.same key entry.2 = true
                      /\ In entry.1 people)
         assignment.
Proof.
  intros self g assignment groups g' Hnd H.
  exact (determine_locations_assignment _ _ _ _ _ Hnd H).
Qed.

Lemma determine_locations_consistent_witness :
  map fst example_assignment = PeopleTracker.population example_tracker
  /\ Forall (λ entry,
               In entry.2 (PeopleTracker.available_locations example_tracker)
               /\ exists key people,
                    In (key, people) example_groups
                    /\ LocationProfile.same key entry.2 = true
                    /\ In entry.1 people)
       example_assignment.
Proof.
  apply (determine_locations_consistent example_tracker example_oracle_1
           example_assignment example_groups example_oracle_groups).
  - apply NoDup_ListNoDup. compute_done.
  - vm_compute. reflexivity.
Defined.

(** ** What construction builds *)

Section Sampling.
Context {A : Type}.

Lemma take_swap (pool : list A) (j n : nat) (x y : A) :
  (j < n)%nat ->
  pool !! j = Some x -> pool !! (n - 1)%nat = Some y ->
  Permutation (x :: take (n - 1) (<[j := y]> pool)) (take n pool).
Proof.
  intros Hj Hx Hy.
  replace n with (S (n - 1)) at 2 by lia.
  rewrite (take_S_r pool (n - 1) y Hy).
  destruct (decide (j = n - 1)%nat) as [-> | Hne].
  - rewrite take_insert_ge by lia.
    assert (x = y) by congruence. subst y.
    apply Permutation_cons_append.
  - rewrite take_insert_lt by lia.
    set (t := take (n - 1) pool).
    assert (Ht : t !! j = Some x)
      by (unfold t; rewrite lookup_take_lt by lia; exact Hx).
    assert (Hlen : (j < length t)%nat) by (eapply lookup_lt_Some; exact Ht).
    rewrite insert_take_drop by exact Hlen.
    transitivity ((take j t ++ x :: drop (S j) t) ++ [y]);
      [ | now rewrite (take_drop_middle t j x Ht)].
    rewrite <- app_assoc. cbn.
    etransitivity; [apply Permutation_middle | ].
    apply Permutation_app_head. apply perm_skip.
    apply Permutation_cons_append.
Qed.

(** The selection loop returns [k] entries taken from distinct positions
    among the first [n] of the pool. *)
Lemma sample_loop_Ok (k n : nat) (pool : list A) g result g' :
  (k <= n)%nat -> (n <= length pool)%nat ->
  random.sample_loop pool n k g = Ok (result, g') ->
  length result = k
  /\ exists rest, Permutation (result ++ rest) (take n pool).
Proof.
  revert n pool g result g'.
  induction k as [| k IH]; intros n pool g result g' Hk Hn H; cbn in H.
  - apply ret_Ok in H. injection H as -> ->. split; [reflexivity | ].
    exists (take n pool). reflexivity.
  - apply bind_Ok in H as (j & g1 & Hj & H).
    destruct (randbelow_Ok (Z.of_nat n) g) as (j' & g1' & Hj' & Hrange).
    rewrite Hj in Hj'. injection Hj' as <- <-.
    specialize (Hrange ltac:(lia)).
    destruct (pool !! Z.to_nat j) as [x |] eqn:Hx; [ | discriminate].
    destruct (pool !! (n - 1)%nat) as [y |] eqn:Hy; [ | discriminate].
    apply bind_Ok in H as (rest & g2 & Hrest & H).
    apply ret_Ok in H. injection H as -> ->.
    apply IH in Hrest as [Hlen (others & Hperm)];
      [ | lia | rewrite length_insert; lia].
    split; [cbn; now rewrite Hlen | ].
    exists others. cbn. rewrite Hperm.
    apply take_swap; [lia | exact Hx | exact Hy].
Qed.

Lemma sample_Ok (population : list A) (k : Z) g result g' :
  random.sample population k g = Ok (result, g') ->
  0 <= k <= len population
  /\ length result = Z.to_nat k
  /\ exists rest, Permutation (result ++ rest) population.
Proof.
  unfold random.sample, len. intros H.
  destruct ((0 <=? k) && (k <=? Z.of_nat (length population))) eqn:Hrange;
    [ | discriminate].
  apply andb_true_iff in Hrange as [H0 Hn].
  apply Z.leb_le in H0. apply Z.leb_le in Hn. cbn [negb] in H.
  apply sample_loop_Ok in H as [Hlen (rest & Hperm)]; [ | lia | lia].
  split; [lia | ]. split; [exact Hlen | ].
  exists rest. rewrite Hperm. rewrite take_ge by lia. reflexivity.
Qed.

End Sampling.

Section InitialInfected.

Implicit Types (infected : gmap Z PersonProfile.t).

Lemma fold_add_contains (l : list PersonProfile.t) infected p :
  PersonSet.contains (foldl PersonSet.add infected l) p = true
  <-> PersonSet.contains infected p = true
      \/ exists q, In q l /\ PersonProfile.id q = PersonProfile.id p.
Proof.
  revert infected. induction l as [| a l IH]; intros infected; cbn.
  - split; [now left | intros [H | (q & [] & _)]; exact H].
  - rewrite IH, contains_add_iff. split.
    + intros [[H | H] | (q & Hq & Hid)]; [now left | right | right].
      * exists a. split; [now left | congruence].
      * exists q. split; [now right | exact Hid].
    + intros [H | (q & [<- | Hq] & Hid)]; [now left; left | left; right | right].
      * congruence.
      * exists q. auto.
Qed.

Lemma fold_add_size (l : list PersonProfile.t) infected :
  (forall q, In q l -> PersonSet.contains infected q = false) ->
  List.NoDup (map PersonProfile.id l) ->
  size (foldl PersonSet.add infected l) = (size infected + length l)%nat.
Proof.
  revert infected. induction l as [| a l IH]; intros infected Hnew Hnd; cbn.
  - lia.
  - cbn in Hnd. apply List.NoDup_cons_iff in Hnd as [Ha Hnd].
    rewrite IH; [ | | exact Hnd].
    + unfold PersonSet.add. rewrite (Hnew a) by (now left).
      rewrite map_size_insert_None; [lia | ].
      pose proof (Hnew a ltac:(now left)) as Hc.
      destruct (infected !! PersonProfile.id a) eqn:Hl; [ | reflexivity].
      assert (PersonSet.contains infected a = true) by (apply contains_true; eauto).
      congruence.
    + intros q Hq.
      destruct (PersonSet.contains (PersonSet.add infected a) q) eqn:Hc;
        [ | reflexivity].
      apply contains_add_iff in Hc as [Hc | Hid].
      * rewrite (Hnew q) in Hc by (now right). discriminate.
      * exfalso. apply Ha. rewrite <- Hid. apply in_map. exact Hq.
Qed.

End InitialInfected.

Section Generators.
Import PeopleTracker.

Lemma pool_keys_app categories counts cat c :
  length categories = length counts ->
  pool_keys (categories ++ [cat]) (counts ++ [c])
  = pool_keys categories counts ++ map (λ i, (cat, i)) (range c).
Proof.
  intros Hlen. unfold pool_keys.
  rewrite zip_with_app by exact Hlen. rewrite concat_app. cbn.
  now rewrite app_nil_r.
Qed.

Lemma pool_keys_category categories counts cat i :
  In (cat, i) (pool_keys categories counts) -> In cat categories.
Proof.
  unfold pool_keys. revert counts.
  induction categories as [| a categories IH]; intros [| c counts] Hin;
    cbn in Hin; try destruct Hin.
  apply in_app_iff in Hin as [Hin | Hin].
  - apply in_map_iff in Hin as (j & [= <- _] & _). now left.
  - right. eapply IH. exact Hin.
Qed.

Lemma pool_keys_NoDup categories counts :
  List.NoDup categories -> List.NoDup (pool_keys categories counts).
Proof.
  unfold pool_keys. revert counts.
  induction categories as [| a categories IH]; intros [| c counts] Hnd; cbn;
    try constructor.
  apply List.NoDup_cons_iff in Hnd as [Ha Hnd].
  apply NoDup_ListNoDup. apply NoDup_app. split; [ | split].
  - apply NoDup_ListNoDup. apply Finite.Injective_map_NoDup; [ | apply range_NoDup].
    intros x y [= ->]. reflexivity.
  - intros [cat i] Hin Hin'.
    apply list_elem_of_In in Hin. apply list_elem_of_In in Hin'.
    apply in_map_iff in Hin as (j & [= <- _] & _).
    apply Ha. eapply pool_keys_category. exact Hin'.
  - apply NoDup_ListNoDup. apply IH. exact Hnd.
Qed.

Lemma pool_keys_length categories counts :
  length categories = length counts ->
  Forall (λ c, 1 <= c <= 5) counts ->
  (length categories <= length (pool_keys categories counts)
   <= 5 * length categories)%nat.
Proof.
  unfold pool_keys. revert counts.
  induction categories as [| a categories IH]; intros [| c counts] Hlen Hb;
    cbn in *; try lia.
  apply Forall_cons in Hb as [Hc Hb].
  rewrite length_app, length_map, range_length.
  specialize (IH counts ltac:(lia) Hb). lia.
Qed.

Lemma Location_all_NoDup : List.NoDup Location.all.
Proof.
  unfold Location.all.
  repeat (constructor; [cbn; intuition discriminate | ]). constructor.
Qed.

(** X14: [generate_population] never raises; it returns the people with
    ids 0, 1, ..., count-1 in this order (nobody for a count <= 0), each
    with the high or the low propensity for masks (0.7 or 0.2) and for
    distancing (0.6 or 0.1). *)
Theorem generate_population_ids_and_tiers :
  forall (population_count : Z) (mask_wearing_rate social_distancing_rate : float)
         (g : RandomState),
    exists population g',
      generate_population population_count mask_wearing_rate
        social_distancing_rate g = Ok (population, g')
      /\ map PersonProfile.id population = range population_count
      /\ Forall (λ p,
                   (PersonProfile.mask_prob p
                    = PersonProfile.HIGH_MASK_WEARING_PROBABILITY
                    \/ PersonProfile.mask_prob p
                       = PersonProfile.LOW_MASK_WEARING_PROBABILITY)
                   /\ (PersonProfile.social_distancing_prob p
                       = PersonProfile.HIGH_SOCIAL_DISTANCING_PROBABILITY
                       \/ PersonProfile.social_distancing_prob p
                          = PersonProfile.LOW_SOCIAL_DISTANCING_PROBABILITY))
           population.
Proof.
  intros count mwr sdr g. unfold generate_population.
  match goal with
  | |- exists _ _, for_each ?xs ?body ?s ?g = _ /\ _ /\ Forall ?Q _ =>
      destruct (for_each_total
                  (λ done population,
                     map PersonProfile.id population = done /\ Forall Q population)
                  body xs) with s g as (population & g' & Hrun & Hids & Htiers)
  end.
  - intros done i todo population g1 _ [Hids Htiers].
    destruct (random_total g1) as (r1 & g2 & H1).
    destruct (random_total g2) as (r2 & g3 & H2).
    do 2 eexists. split.
    + eapply bind_Ok_intro; [exact H1 | ].
      eapply bind_Ok_intro; [exact H2 | reflexivity].
    + split; [rewrite map_app, Hids; reflexivity | ].
      apply Forall_app. split; [exact Htiers | ].
      constructor; [ | constructor]. cbn.
      destruct (r1 <? mwr)%float, (r2 <? sdr)%float; auto.
  - split; [reflexivity | constructor].
  - eauto.
Qed.

(** X15: with a mask-wearing rate of zero or below nobody gets the high
    mask propensity, and with a social-distancing rate of zero or below
    nobody gets the high distancing propensity: no draw of
    [random.random()] is below such a rate. *)
Theorem generate_population_low_rates :
  forall (population_count : Z) (mask_wearing_rate social_distancing_rate : float)
         (g : RandomState),
    exists population g',
      generate_population population_count mask_wearing_rate
        social_distancing_rate g = Ok (population, g')
      /\ ((mask_wearing_rate <=? 0)%float = true ->
          Forall (λ p, PersonProfile.mask_prob p
                       = PersonProfile.LOW_MASK_WEARING_PROBABILITY) population)
      /\ ((social_distancing_rate <=? 0)%float = true ->
          Forall (λ p, PersonProfile.social_distancing_prob p
                       = PersonProfile.LOW_SOCIAL_DISTANCING_PROBABILITY)
            population).
Proof.
  intros count mwr sdr g. unfold generate_population.
  match goal with
  | |- exists _ _, for_each ?xs ?body ?s ?g = _ /\ (_ -> Forall ?Q1 _)
                   /\ (_ -> Forall ?Q2 _) =>
      destruct (for_each_total
                  (λ _ population,
                     ((mwr <=? 0)%float = true -> Forall Q1 population)
                     /\ ((sdr <=? 0)%float = true -> Forall Q2 population))
                  body xs) with s g as (population & g' & Hrun & Hlow)
  end.
  - intros done i todo population g1 _ [Hm Hd].
    destruct (random_total g1) as (r1 & g2 & H1).
    destruct (random_total g2) as (r2 & g3 & H2).
    do 2 eexists. split.
    + eapply bind_Ok_intro; [exact H1 | ].
      eapply bind_Ok_intro; [exact H2 | reflexivity].
    + split; intros Hrate; apply Forall_app;
        (split; [auto | constructor; [ | constructor]]); cbn.
      * rewrite (random_not_below_rate _ _ _ _ H1 Hrate). reflexivity.
      * rewrite (random_not_below_rate _ _ _ _ H2 Hrate). reflexivity.
  - split; constructor.
  - eauto.
Qed.

Lemma generate_population_low_rates_witness :
  exists population g',
    generate_population 4 0 (-0.5) example_oracle = Ok (population, g')
    /\ Forall (λ p, PersonProfile.mask_prob p
                    = PersonProfile.LOW_MASK_WEARING_PROBABILITY) population
    /\ Forall (λ p, PersonProfile.social_distancing_prob p
                    = PersonProfile.LOW_SOCIAL_DISTANCING_PROBABILITY) population.
Proof.
  destruct (generate_population_low_rates 4 0 (-0.5) example_oracle)
    as (population & g' & Hrun & Hmask & Hdist).
  exists population, g'. split; [exact Hrun | ].
  split; [apply Hmask; reflexivity | apply Hdist; reflexivity].
Defined.

(** X16: [generate_available_locations] never raises; the pool holds, for
    the six categories in enum order, between one and five instances each,
    numbered from 0 within the category, so the (category, id) labels are
    pairwise distinct and the pool has between 6 and 30 locations; every
    instance is a distinct object. *)
Theorem generate_available_locations_pool :
  forall g : RandomState,
    exists available_locations g' counts,
      generate_available_locations g = Ok (available_locations, g')
      /\ length counts = 6%nat
      /\ Forall (λ c, 1 <= c <= 5) counts
      /\ map location_key available_locations = pool_keys Location.all counts
      /\ List.NoDup (map location_key available_locations)
      /\ map LocationProfile.addr available_locations
         = seq 0 (length available_locations)
      /\ (6 <= length available_locations <= 30)%nat.
Proof.
  intros g. unfold generate_available_locations.
  match goal with
  | |- exists _ _ _, for_each ?xs ?body ?s ?g = _ /\ _ =>
      destruct (for_each_total
                  (λ (done : list Location.t) (locs : list LocationProfile.t),
                     map LocationProfile.addr locs = seq 0 (length locs)
                     /\ exists counts,
                          length done = length counts
                          /\ Forall (λ c, 1 <= c <= 5) counts
                          /\ map location_key locs = pool_keys done counts)
                  body xs) with s g
        as (locs & g' & Hrun & Haddr & counts & Hlen & Hbounds & Hkeys)
  end.
  - intros done location todo locs g1 _ (Haddr & counts & Hlen & Hbounds & Hkeys).
    destruct (randint_1_5_Ok g1) as (c & g2 & Hc & Hge).
    assert (Hle : c <= 5).
    { unfold random.randint in Hc. change (0 <? 5 + 1 - 1) with true in Hc.
      cbn iota in Hc. apply bind_Ok in Hc as (r & g3 & Hr & Hc).
      apply ret_Ok in Hc. injection Hc as -> ->.
      destruct (randbelow_Ok 5 g1) as (r' & g3' & Hr' & Hrange).
      change (5 + 1 - 1) with 5 in Hr. rewrite Hr in Hr'.
      injection Hr' as <- <-. lia. }
    destruct (for_each_total
                (λ (inner : list Z) (s : list LocationProfile.t),
                   map LocationProfile.addr s = seq 0 (length s)
                   /\ map location_key s
                      = map location_key locs ++ map (λ i, (location, i)) inner)
                (λ i available_locations,
                   mret (available_locations
                         ++ [LocationProfile.mk (length available_locations)
                               i location]))
                (range c)) with locs g2 as (locs' & g3 & Hinner & Haddr' & Hkeys').
    + intros inner i todo' s g4 _ [Hs Hk]. do 2 eexists. split; [reflexivity | ].
      split.
      * rewrite map_app, length_app, Hs. cbn.
        rewrite Nat.add_1_r, seq_S. reflexivity.
      * rewrite !map_app, Hk. cbn. now rewrite <- app_assoc.
    + split; [exact Haddr | cbn; now rewrite app_nil_r].
    + exists locs', g3. split; [eapply bind_Ok_intro; [exact Hc | exact Hinner] | ].
      split; [exact Haddr' | ].
      exists (counts ++ [c]). split; [rewrite !length_app; cbn; lia | ].
      split; [apply Forall_app; split; [exact Hbounds | repeat constructor; lia] | ].
      rewrite Hkeys', Hkeys. symmetry. apply pool_keys_app. exact Hlen.
  - split; [reflexivity | ]. exists []. repeat split. constructor.
  - exists locs, g', counts.
    split; [exact Hrun | ]. split; [now rewrite <- Hlen | ].
    split; [exact Hbounds | ]. split; [exact Hkeys | ].
    split; [rewrite Hkeys; apply pool_keys_NoDup, Location_all_NoDup | ].
    split; [exact Haddr | ].
    pose proof (pool_keys_length Location.all counts Hlen Hbounds) as Hl.
    rewrite <- Hkeys, length_map in Hl. cbn in Hl. lia.
Qed.

(** What the constructor returns. *)
Lemma initial_state_core :
  forall (population_count : Z)
         (initial_infection_rate mask_wearing_rate social_distancing_rate : float)
         (g : RandomState) self g',
    __init__ population_count initial_infection_rate mask_wearing_rate
      social_distancing_rate g = Ok (self, g') ->
    simulated_day self = 0
    /\ map PersonProfile.id (population self) = range population_count
    /\ (forall p,
           PersonSet.contains (infected_population self) p = true ->
           exists q, In q (population self)
                     /\ PersonProfile.id q = PersonProfile.id p)
    /\ exists k,
         initial_sample_size (len (population self)) initial_infection_rate = Ok k
         /\ 0 <= k <= len (population self)
         /\ size (infected_population self) = Z.to_nat k.
Proof.
  intros count iir mwr sdr g self g' H.
  destruct (init_outcome count iir mwr sdr g)
    as (population & locations & g2 & Hids & _ & Hinit).
  rewrite Hinit in H.
  destruct (get_initial_infected_population population iir g2)
    as [[infected g3] | e] eqn:Hsample; [ | discriminate].
  injection H as <- <-. cbn.
  split; [reflexivity | ]. split; [exact Hids | ].
  unfold get_initial_infected_population in Hsample.
  apply bind_Ok in Hsample as (n & g4 & Hn & Hsample).
  apply lift_Ok in Hn as [Hn Hg]. cbn in Hn, Hg. subst g4.
  apply bind_Ok in Hsample as (k & g5 & Hk & Hsample).
  apply lift_Ok in Hk as [Hk Hg]. cbn in Hk, Hg. subst g5.
  apply sample_Ok in Hsample as (Hrange & Hlen & rest & Hperm).
  assert (Hnd : List.NoDup (map PersonProfile.id infected)).
  { assert (Hall : List.NoDup (map PersonProfile.id (infected ++ rest))).
    { eapply Permutation_NoDup;
        [apply Permutation_map; symmetry; exact Hperm | ].
      rewrite Hids. apply range_NoDup. }
    rewrite map_app in Hall. apply NoDup_app_remove_r in Hall. exact Hall. }
  split.
  - intros p Hp. unfold PersonSet.of_list in Hp.
    apply fold_add_contains in Hp as [Hp | (q & Hq & Hid)]; [discriminate | ].
    exists q. split; [ | exact Hid].
    eapply Permutation_in; [exact Hperm | ]. apply in_or_app. now left.
  - exists k. split.
    + unfold initial_sample_size. rewrite Hn. cbn. exact Hk.
    + split; [exact Hrange | ].
      unfold PersonSet.of_list. rewrite fold_add_size; [ | | exact Hnd].
      * rewrite map_size_empty. cbn. exact Hlen.
      * intros q _. reflexivity.
Qed.


(** X17: a tracker returned by the constructor starts at day 0 with the
    people 0..count-1, and its infected set holds exactly
    [int(len(population) * initial_infection_rate)] people, all of them
    members of the population. *)
Theorem init_initial_state :
  forall (population_count : Z)
         (initial_infection_rate mask_wearing_rate social_distancing_rate : float)
         (g : RandomState) self g',
    __init__ population_count initial_infection_rate mask_wearing_rate
      social_distancing_rate g = Ok (self, g') ->
    simulated_day self = 0
    /\ map PersonProfile.id (population self) = range population_count
    /\ (forall p,
           PersonSet.contains (infected_population self) p = true ->
           exists q, In q (population self)
                     /\ PersonProfile.id q = PersonProfile.id p)
    /\ exists k,
         initial_sample_size (len (population self)) initial_infection_rate = Ok k
         /\ 0 <= k <= len (population self)
         /\ size (infected_population self) = Z.to_nat k.
Proof. exact initial_state_core. Qed.

Lemma init_initial_state_witness :
  simulated_day example_tracker = 0
  /\ map PersonProfile.id (population example_tracker) = range 6
  /\ (forall p,
         PersonSet.contains (infected_population example_tracker) p = true ->
         exists q, In q (population example_tracker)
                   /\ PersonProfile.id q = PersonProfile.id p)
  /\ exists k,
       initial_sample_size (len (population example_tracker)) 0.5 = Ok k
       /\ 0 <= k <= len (population example_tracker)
       /\ size (infected_population example_tracker) = Z.to_nat k.
Proof.
  apply (init_initial_state 6 0.5 0.7 0.5 example_oracle
           example_tracker example_oracle_1).
  vm_compute. reflexivity.
Defined.

End Generators.

(** ** The rows of the output *)

Section CsvRows.

Lemma str_int_inj (z z' : Z) : Py.str_int z = Py.str_int z' -> z = z'.
Proof.
  unfold Py.str_int. intros H.
  assert (Hparse : forall n,
            DecimalString.NilZero.int_of_string
              (DecimalString.NilZero.string_of_int (Z.to_int n))
            = Some (Z.to_int n)).
  { intros n. apply DecimalString.NilZero.isi; destruct n; cbn;
      try discriminate; intros [= Hnil];
      exact (DecimalPos.Unsigned.to_uint_nonnil _ Hnil). }
  apply DecimalZ.to_int_inj.
  pose proof (Hparse z) as Hz. rewrite H, Hparse in Hz. congruence.
Qed.

Lemma place_label_inj (l l' : Location.t) (s s' : string) :
  Py.lower (Location.name l) +:+ " " +:+ s
  = Py.lower (Location.name l') +:+ " " +:+ s' ->
  l = l' /\ s = s'.
Proof.
  intros H.
  destruct l, l'; vm_compute in H;
    solve [split; [reflexivity | congruence] | congruence].
Qed.

Lemma str_bool_inj (b b' : bool) : Py.str_bool b = Py.str_bool b' -> b = b'.
Proof. destruct b, b'; intros H; vm_compute in H; congruence. Qed.

End CsvRows.

(** X18: a row determines what it reports: two records with the same
    [to_csv_row()] have the same day, the same person id, the same
    location category and instance id, and the same four flags. *)
Theorem to_csv_row_injective :
  forall r r' : PersonDay.t,
    PersonDay.to_csv_row r = PersonDay.to_csv_row r' ->
    PersonDay.day r = PersonDay.day r'
    /\ PersonProfile.id (PersonDay.person r) = PersonProfile.id (PersonDay.person r')
    /\ location_key (PersonDay.place r) = location_key (PersonDay.place r')
    /\ PersonDay.pre_visit_covid r = PersonDay.pre_visit_covid r'
    /\ PersonDay.post_visit_covid r = PersonDay.post_visit_covid r'
    /\ PersonDay.mask r = PersonDay.mask r'
    /\ PersonDay.social_distancing r = PersonDay.social_distancing r'.
Proof.
  intros r r' H. unfold PersonDay.to_csv_row in H.
  injection H as Hday Hperson Hplace Hpre Hpost Hmask Hsd.
  cbv beta iota delta [String.append] in Hperson. apply str_int_inj in Hperson.
  apply place_label_inj in Hplace as [Hcat Hid]. apply str_int_inj in Hid.
  apply str_bool_inj in Hpre, Hpost, Hmask, Hsd.
  unfold location_key. rewrite Hcat, Hid. auto 10.
Qed.

Lemma to_csv_row_injective_witness :
  PersonDay.day example_record = PersonDay.day example_record'
  /\ PersonProfile.id (PersonDay.person example_record)
     = PersonProfile.id (PersonDay.person example_record')
  /\ location_key (PersonDay.place example_record)
     = location_key (PersonDay.place example_record')
  /\ PersonDay.pre_visit_covid example_record
     = PersonDay.pre_visit_covid example_record'
  /\ PersonDay.post_visit_covid example_record
     = PersonDay.post_visit_covid example_record'
  /\ PersonDay.mask example_record = PersonDay.mask example_record'
  /\ PersonDay.social_distancing example_record
     = PersonDay.social_distancing example_record'.
Proof.
  apply (to_csv_row_injective example_record example_record').
  reflexivity.
Defined.

(** ** The driver *)

Section Driver.
Import PeopleTracker.

Lemma write_rows (rows : list PersonDay.t) (written : list (list cell)) g :
  for_each rows (λ row written, mret (written ++ [PersonDay.to_csv_row row]))
    written g
  = Ok (written ++ map PersonDay.to_csv_row rows, g).
Proof.
  revert written. induction rows as [| r rows IH]; intros written; cbn.
  - now rewrite app_nil_r.
  - unfold mbind, Rand_bind. cbn. rewrite IH. now rewrite <- app_assoc.
Qed.

Lemma simulate_day_frame self g summary self' g' :
  simulate_day self g = Ok ((summary, self'), g') ->
  simulated_day self' = simulated_day self + 1
  /\ population self' = population self
  /\ available_locations self' = available_locations self.
Proof.
  intros H.
  apply simulate_day_Ok in H as (assignment & groups & g1 & self1 & _ & Hupd & ->).
  apply update_infection_Ok in Hupd as (infected' & day_summary & _ & _ & ->).
  cbn. auto.
Qed.

(** A day on a well-formed tracker returns a summary as the driver
    expects it. *)
Lemma simulate_day_summary self g :
  well_formed self ->
  exists summary self' g',
    simulate_day self g = Ok ((summary, self'), g')
    /\ day_summary_ok (population self) (simulated_day self) summary
    /\ well_formed self'
    /\ simulated_day self' = simulated_day self + 1
    /\ population self' = population self.
Proof.
  intros [Hne Hnd].
  destruct (simulate_day_total self g Hne) as (summary & self' & g' & Hrun).
  exists summary, self', g'. split; [exact Hrun | ].
  pose proof (simulate_day_frame _ _ _ _ _ Hrun) as (Hday & Hpop & Hloc).
  split; [ | split; [ | auto]].
  - split; [ | split].
    + pose proof (simulate_day_records _ _ _ _ _ Hrun) as (groups & _ & _ & Hok & _).
      eapply Forall_impl; [exact Hok | ]. intros r (Hr & _). exact Hr.
    + exact (simulate_day_persons _ _ _ _ _ Hrun).
    + apply simulate_day_Ok in Hrun
          as (assignment & groups & g1 & self1 & _ & Hupd & _).
      apply update_infection_Ok in Hupd as (infected' & day_summary & _ & -> & _).
      eapply StronglySorted_weaken; [ | apply (sort_sorted sort_key)].
      intros a b Hab. apply key_le_spec in Hab. exact Hab.
  - split; [rewrite Hloc; exact Hne | rewrite Hpop; exact Hnd].
Qed.

Lemma data_rows_app days summary :
  data_rows (days ++ [summary])
  = data_rows days ++ map PersonDay.to_csv_row summary.
Proof.
  unfold data_rows. rewrite map_app, concat_app. cbn. now rewrite app_nil_r.
Qed.

Lemma data_rows_length days n :
  Forall (λ summary : list PersonDay.t, length summary = n) days ->
  length (data_rows days) = (length days * n)%nat.
Proof.
  unfold data_rows. induction 1 as [| summary days Hs _ IH]; cbn; [reflexivity | ].
  rewrite length_app, length_map, IH, Hs. reflexivity.
Qed.

End Driver.

(** What [generate_csv] writes, on any well-formed tracker. *)
Lemma csv_rows_core :
  forall (self : CovidDataGenerator.t) (csv_file : string) (g : RandomState),
    well_formed (CovidDataGenerator.people_tracker self) ->
    exists days self' g',
      CovidDataGenerator.generate_csv self csv_file g
      = Ok ((CovidDataGenerator.header :: data_rows days, self'), g')
      /\ length days = 7%nat
      /\ (forall (d : nat) summary,
             days !! d = Some summary ->
             day_summary_ok
               (PeopleTracker.population (CovidDataGenerator.people_tracker self))
               (PeopleTracker.simulated_day (CovidDataGenerator.people_tracker self)
                + Z.of_nat d)
               summary)
      /\ length (data_rows days)
         = (7 * length (PeopleTracker.population
                          (CovidDataGenerator.people_tracker self)))%nat
      /\ PeopleTracker.simulated_day (CovidDataGenerator.people_tracker self')
         = PeopleTracker.simulated_day (CovidDataGenerator.people_tracker self) + 7
      /\ PeopleTracker.population (CovidDataGenerator.people_tracker self')
         = PeopleTracker.population (CovidDataGenerator.people_tracker self).
Proof.
  intros self csv_file g Hwf.
  set (tracker := CovidDataGenerator.people_tracker self) in *.
  set (pop := PeopleTracker.population tracker).
  set (day0 := PeopleTracker.simulated_day tracker).
  unfold CovidDataGenerator.generate_csv.
  match goal with
  | |- exists _ _ _, for_each ?xs ?body ?s ?g = _ /\ _ =>
      destruct (for_each_total
                  (λ (done : list Z) (st : list (list cell) * CovidDataGenerator.t),
                     well_formed (CovidDataGenerator.people_tracker st.2)
                     /\ PeopleTracker.population
                          (CovidDataGenerator.people_tracker st.2) = pop
                     /\ PeopleTracker.simulated_day
                          (CovidDataGenerator.people_tracker st.2)
                        = day0 + Z.of_nat (length done)
                     /\ exists days,
                          length days = length done
                          /\ st.1 = CovidDataGenerator.header :: data_rows days
                          /\ forall (d : nat) summary,
                               days !! d = Some summary ->
                               day_summary_ok pop (day0 + Z.of_nat d) summary)
                  body xs) with s g
        as ([written self'] & g' & Hrun & Hwf' & Hpop & Hday & days & Hlen
            & Hwritten & Hdays)
  end.
  - intros done i todo [written self_i] g1 _
           (Hwf_i & Hpop_i & Hday_i & days & Hlen & Hwritten & Hdays).
    cbn [fst snd] in *.
    destruct (simulate_day_summary (CovidDataGenerator.people_tracker self_i) g1 Hwf_i)
      as (summary & tracker' & g2 & Hrun & Hsum & Hwf1 & Hday1 & Hpop1).
    exists (written ++ map PersonDay.to_csv_row summary,
            CovidDataGenerator.mk tracker'), g2.
    split.
    + eapply bind_Ok_intro.
      * unfold CovidDataGenerator.generate_data.
        eapply bind_Ok_intro; [exact Hrun | reflexivity].
      * cbn. eapply bind_Ok_intro; [apply write_rows | reflexivity].
    + cbn [fst snd CovidDataGenerator.people_tracker].
      split; [exact Hwf1 | ]. split; [congruence | ].
      split; [rewrite Hday1, Hday_i, length_app; cbn; lia | ].
      exists (days ++ [summary]).
      split; [rewrite !length_app; cbn; lia | ].
      split; [rewrite Hwritten, data_rows_app; reflexivity | ].
      intros d s Hd. apply lookup_app_Some in Hd as [Hd | [Hge Hd]].
      * apply Hdays. exact Hd.
      * apply list_lookup_singleton_Some in Hd as [Hd0 <-].
        replace d with (length days) by lia.
        rewrite Hlen, <- Hday_i, <- Hpop_i. exact Hsum.
  - cbn. split; [exact Hwf | ]. split; [reflexivity | ].
    split; [unfold day0, tracker; lia | ].
    exists []. split; [reflexivity | ]. split; [reflexivity | ].
    intros d s Hd. discriminate.
  - cbn [fst snd] in *. exists days, self', g'.
    rewrite <- Hwritten. split; [exact Hrun | ].
    assert (H7 : length days = 7%nat) by (rewrite Hlen; reflexivity).
    split; [exact H7 | ]. split; [exact Hdays | ].
    split; [ | split; [rewrite Hday; cbn; lia | exact Hpop]].
    rewrite (data_rows_length days (length pop)); [rewrite H7; reflexivity | ].
    apply Forall_lookup. intros d s Hd.
    destruct (Hdays d s Hd) as (_ & Hperm & _).
    rewrite <- (length_map PersonDay.person). apply Permutation_length. exact Hperm.
Qed.


(** X19: on a tracker with distinct person ids and a non-empty location
    pool [generate_csv] returns; it writes the header and then, day by
    day, the rows of seven day summaries: the d-th summary is stamped
    with the d-th day after the tracker's day, has one record per person
    and is in the sorted order, so there are seven times the population
    size data rows; the tracker ends seven days later. *)
Theorem generate_csv_rows :
  forall (self : CovidDataGenerator.t) (csv_file : string) (g : RandomState),
    well_formed (CovidDataGenerator.people_tracker self) ->
    exists days self' g',
      CovidDataGenerator.generate_csv self csv_file g
      = Ok ((CovidDataGenerator.header :: data_rows days, self'), g')
      /\ length days = 7%nat
      /\ (forall (d : nat) summary,
             days !! d = Some summary ->
             day_summary_ok
               (PeopleTracker.population (CovidDataGenerator.people_tracker self))
               (PeopleTracker.simulated_day (CovidDataGenerator.people_tracker self)
                + Z.of_nat d)
               summary)
      /\ length (data_rows days)
         = (7 * length (PeopleTracker.population
                          (CovidDataGenerator.people_tracker self)))%nat
      /\ PeopleTracker.simulated_day (CovidDataGenerator.people_tracker self')
         = PeopleTracker.simulated_day (CovidDataGenerator.people_tracker self) + 7
      /\ PeopleTracker.population (CovidDataGenerator.people_tracker self')
         = PeopleTracker.population (CovidDataGenerator.people_tracker self).
Proof. exact csv_rows_core. Qed.

Lemma generate_csv_rows_witness :
  exists days self' g',
    CovidDataGenerator.generate_csv example_generator "out.csv" example_oracle_1
    = Ok ((CovidDataGenerator.header :: data_rows days, self'), g')
    /\ length days = 7%nat
    /\ (forall (d : nat) summary,
           days !! d = Some summary ->
           day_summary_ok
             (PeopleTracker.population
                (CovidDataGenerator.people_tracker example_generator))
             (PeopleTracker.simulated_day
                (CovidDataGenerator.people_tracker example_generator)
              + Z.of_nat d)
             summary)
    /\ length (data_rows days)
       = (7 * length (PeopleTracker.population
                        (CovidDataGenerator.people_tracker example_generator)))%nat
    /\ PeopleTracker.simulated_day (CovidDataGenerator.people_tracker self')
       = PeopleTracker.simulated_day
           (CovidDataGenerator.people_tracker example_generator) + 7
    /\ PeopleTracker.population (CovidDataGenerator.people_tracker self')
       = PeopleTracker.population
           (CovidDataGenerator.people_tracker example_generator).
Proof.
  apply (generate_csv_rows example_generator "out.csv" example_oracle_1).
  split.
  - vm_compute. discriminate.
  - apply NoDup_ListNoDup. compute_done.
Defined.

(** X20: the program as configured never raises (file errors aside): for
    every run [main] builds a tracker for 1500 people, 45 of them
    infected, and writes the header followed by 10500 data rows, the
    sorted one-record-per-person summaries of days 0 to 6. *)
Theorem main_writes_seven_days :
  forall g : RandomState,
    exists days generator g',
      main g = Ok ((CovidDataGenerator.header :: data_rows days, generator), g')
      /\ length days = 7%nat
      /\ map PersonProfile.id
           (PeopleTracker.population (CovidDataGenerator.people_tracker generator))
         = range 1500
      /\ (forall (d : nat) summary,
             days !! d = Some summary ->
             day_summary_ok
               (PeopleTracker.population
                  (CovidDataGenerator.people_tracker generator))
               (Z.of_nat d) summary)
      /\ len (data_rows days) = 10500.
Proof.
  intros g. unfold main, CovidDataGenerator.__init__.
  destruct (init_outcome CovidDataGenerator.POPULATION
              CovidDataGenerator.INITIAL_INFECTION_RATE
              CovidDataGenerator.MASK_WEARING_RATE
              CovidDataGenerator.SOCIAL_DISTANCING_RATE g)
    as (population & locations & g2 & Hids & Hne & Hinit).
  pose proof (population_len population _ Hids) as Hlen.
  change (Z.max 0 CovidDataGenerator.POPULATION) with 1500 in Hlen.
  pose proof (get_initial_infected_population_outcome population
                CovidDataGenerator.INITIAL_INFECTION_RATE g2) as Hsample.
  rewrite Hlen in Hsample.
  assert (Hsize : initial_sample_size 1500 CovidDataGenerator.INITIAL_INFECTION_RATE
                  = Ok 45) by (vm_compute; reflexivity).
  rewrite Hsize in Hsample. cbn in Hsample.
  destruct Hsample as (infected & g3 & Hsample).
  rewrite Hsample in Hinit.
  set (tracker := PeopleTracker.mk 0 population locations
                    (PersonSet.of_list infected)) in *.
  assert (Hwf : well_formed tracker).
  { split; cbn; [exact Hne | ]. rewrite Hids. apply range_NoDup. }
  destruct (csv_rows_core (CovidDataGenerator.mk tracker)
              "contact_tracing.csv" g3 Hwf)
    as (days & generator & g' & Hrun & H7 & Hdays & Hrows & _ & Hpop).
  exists days, generator, g'.
  split.
  - eapply bind_Ok_intro; [ | exact Hrun].
    eapply bind_Ok_intro; [exact Hinit | reflexivity].
  - split; [exact H7 | ]. cbn in Hpop, Hdays, Hrows.
    split; [rewrite Hpop; exact Hids | ].
    split.
    + intros d s Hd. rewrite Hpop. rewrite <- (Z.add_0_l (Z.of_nat d)).
      apply Hdays. exact Hd.
    + unfold len. rewrite Hrows.
      rewrite <- (length_map PersonProfile.id), Hids, range_length.
      unfold CovidDataGenerator.POPULATION. lia.
Qed.

(** ** Several days *)

(** X21: [n] calls of [simulate_day()] that return advance
    [simulated_day] by exactly [n] and leave the population and the
    location pool as they were. *)
Theorem simulate_days_advance :
  forall (n : nat) (self self' : PeopleTracker.t),
    nsteps simulate_day_call n self self' ->
    PeopleTracker.simulated_day self'
    = PeopleTracker.simulated_day self + Z.of_nat n
    /\ PeopleTracker.population self' = PeopleTracker.population self
    /\ PeopleTracker.available_locations self'
       = PeopleTracker.available_locations self.
Proof.
  intros n self self' Hsteps.
  induction Hsteps as [self | n self mid self' (g & summary & g' & Hcall) _ IH].
  - repeat split. lia.
  - destruct IH as (Hday & Hpop & Hloc).
    apply simulate_day_frame in Hcall as (Hday1 & Hpop1 & Hloc1).
    rewrite Hday, Hpop, Hloc, Hday1, Hpop1, Hloc1. repeat split. lia.
Qed.

Lemma simulate_days_advance_witness :
  PeopleTracker.simulated_day example_after
  = PeopleTracker.simulated_day example_tracker + Z.of_nat 1
  /\ PeopleTracker.population example_after
     = PeopleTracker.population example_tracker
  /\ PeopleTracker.available_locations example_after
     = PeopleTracker.available_locations example_tracker.
Proof.
  apply (simulate_days_advance 1 example_tracker example_after).
  apply nsteps_once.
  exists example_oracle_1, example_summary, example_oracle_2.
  vm_compute. reflexivity.
Defined.

(** X22: the infected stay within the population: if every member of the
    infected set is a person of the population, the same holds after any
    sequence of [simulate_day()] calls. *)
Theorem infected_stay_members :
  forall self self' : PeopleTracker.t,
    rtc simulate_day_call self self' ->
    infected_are_members self -> infected_are_members self'.
Proof.
  intros self self' Hcalls.
  induction Hcalls as [self | self mid self' (g & summary & g' & Hcall) _ IH];
    [auto | ].
  intros Hmem. apply IH. clear IH. intros p Hp.
  pose proof (simulate_day_frame _ _ _ _ _ Hcall) as (_ & Hpop & _).
  apply simulate_day_records in Hcall as (groups & _ & Hperm & Hok & Hinf & _).
  rewrite Hpop.
  apply Hinf in Hp as [Hp | (r & Hr & Hid & _)]; [apply Hmem; exact Hp | ].
  exists (PersonDay.person r). split; [ | exact Hid].
  destruct (proj1 (List.Forall_forall _ _) Hok r Hr)
    as (_ & (people & Hgrp & Hperson) & _).
  eapply Permutation_in; [exact Hperm | ].
  unfold occupants. apply in_concat. exists people. split; [ | exact Hperson].
  apply (in_map snd groups _ Hgrp).
Qed.

Lemma infected_stay_members_witness : infected_are_members example_after.
Proof.
  apply (infected_stay_members example_tracker example_after).
  - apply rtc_once.
    exists example_oracle_1, example_summary, example_oracle_2.
    vm_compute. reflexivity.
  - destruct (initial_state_core 6 0.5 0.7 0.5 example_oracle
                example_tracker example_oracle_1) as (_ & _ & Hmem & _);
      [vm_compute; reflexivity | exact Hmem].
Defined.
